(** * Emotion-driven code reviewer: a shallow embedding of
    [src/submissions/kareena_mehta/emotion_code_reviewer.py].

    Python [str] values are modelled as lists of characters whose code
    points are below 256 (Latin-1); the character classes used by [re]
    ([\s], [\w]) and by [str.strip] / [str.lower] are written out for that
    range as CPython defines them for [str] patterns. *)

From Stdlib Require Import List Ascii String Bool Arith Lia QArith.
From Stdlib Require Import DecimalString.
Import ListNotations.

Open Scope nat_scope.
Open Scope bool_scope.

(** ** Python strings *)

Definition pystr := list ascii.

(** A Python string literal. *)
Definition lit (s : string) : pystr := list_ascii_of_string s.

Definition nl : ascii := ascii_of_nat 10.
Definition dq : ascii := ascii_of_nat 34.

Definition pystr_eqb (a b : pystr) : bool :=
  if list_eq_dec ascii_dec a b then true else false.

(** [str.isspace] / [re]'s [\s] on code points 0..255:
    \t \n \v \f \r, \x1c..\x1f, space, \x85, \xa0. *)
Definition isspace (c : ascii) : bool :=
  let n := nat_of_ascii c in
  ((9 <=? n) && (n <=? 13)) || ((28 <=? n) && (n <=? 32))
  || (n =? 133) || (n =? 160).

(** [re]'s [\w] on code points 0..255: [str.isalnum()] or ['_']. *)
Definition is_word (c : ascii) : bool :=
  let n := nat_of_ascii c in
  ((48 <=? n) && (n <=? 57)) || ((65 <=? n) && (n <=? 90))
  || ((97 <=? n) && (n <=? 122)) || (n =? 95)
  || existsb (Nat.eqb n) [170; 178; 179; 181; 185; 186; 188; 189; 190]
  || ((192 <=? n) && (n <=? 214)) || ((216 <=? n) && (n <=? 246))
  || ((248 <=? n) && (n <=? 255)).

(** [str.lower] on code points 0..255. *)
Definition lower_char (c : ascii) : ascii :=
  let n := nat_of_ascii c in
  if ((65 <=? n) && (n <=? 90)) || ((192 <=? n) && (n <=? 214))
     || ((216 <=? n) && (n <=? 222))
  then ascii_of_nat (n + 32) else c.

Definition lower (s : pystr) : pystr := map lower_char s.

Fixpoint lstrip (s : pystr) : pystr :=
  match s with
  | [] => []
  | c :: r => if isspace c then lstrip r else s
  end.

Definition rstrip (s : pystr) : pystr := rev (lstrip (rev s)).

(** [str.strip()] *)
Definition strip (s : pystr) : pystr := rstrip (lstrip s).

(** [s.startswith(p)] *)
Fixpoint startswith (s p : pystr) {struct p} : bool :=
  match p with
  | [] => true
  | c :: p' =>
      match s with
      | [] => false
      | d :: s' => Ascii.eqb c d && startswith s' p'
      end
  end.

(** [needle in hay] *)
Fixpoint contains (hay needle : pystr) : bool :=
  startswith hay needle
  || match hay with
     | [] => false
     | _ :: r => contains r needle
     end.

(** [s.split('\n')] *)
Fixpoint split_nl_aux (s cur : pystr) : list pystr :=
  match s with
  | [] => [rev cur]
  | c :: r =>
      if Ascii.eqb c nl then rev cur :: split_nl_aux r []
      else split_nl_aux r (c :: cur)
  end.

Definition split_nl (s : pystr) : list pystr := split_nl_aux s [].

(** [sep.join(l)] *)
Fixpoint join (sep : pystr) (l : list pystr) : pystr :=
  match l with
  | [] => []
  | [x] => x
  | x :: r => x ++ sep ++ join sep r
  end.

Fixpoint take_while (f : ascii -> bool) (s : pystr) : pystr :=
  match s with
  | [] => []
  | c :: r => if f c then c :: take_while f r else []
  end.

Fixpoint drop_while (f : ascii -> bool) (s : pystr) : pystr :=
  match s with
  | [] => []
  | c :: r => if f c then drop_while f r else s
  end.

(** ** The three regular expressions of [extract_code_context] *)

Definition is_hash_slash (c : ascii) : bool :=
  Ascii.eqb c "#"%char || Ascii.eqb c "/"%char.

(** [re.sub(r'^[#/]+\s*', '', line)]: the greedy [[#/]+] and [\s*] need
    no backtracking, the anchor allows one match at position 0 only. *)
Definition strip_comment_marker (line : pystr) : pystr :=
  match line with
  | c :: _ =>
      if is_hash_slash c then drop_while isspace (drop_while is_hash_slash line)
      else line
  | [] => line
  end.

(** [r'def\s+(\w+)'] tried at the start of [s]; returns group 1.
    Backtracking [\s+] cannot help: a character it gives back is a space,
    never a [\w]. *)
Definition match_def_at (s : pystr) : option pystr :=
  if startswith s (lit "def") then
    let r := skipn 3 s in
    let ws := take_while isspace r in
    let w := take_while is_word (drop_while isspace r) in
    match ws, w with
    | _ :: _, _ :: _ => Some w
    | _, _ => None
    end
  else None.

(** [re.search(r'def\s+(\w+)', line)]: leftmost position that matches. *)
Fixpoint re_search_def (s : pystr) : option pystr :=
  match s with
  | [] => None
  | c :: r =>
      match match_def_at (c :: r) with
      | Some w => Some w
      | None => re_search_def r
      end
  end.

(** [re.search(r'^(\w+)\s*=', line)]; group 1.  Giving back a [\w]
    character never lets [\s*=] match, so greedy matching is exact. *)
Definition match_var (line : pystr) : option pystr :=
  let w := take_while is_word line in
  let r := drop_while isspace (drop_while is_word line) in
  match w, r with
  | _ :: _, c :: _ => if Ascii.eqb c "="%char then Some w else None
  | _, _ => None
  end.

(** ** [extract_code_context] *)

Record code_context := mk_context {
  comments : list pystr;
  functions : list pystr;
  variables : list pystr;
  todo_items : list pystr
}.

Definition empty_context : code_context := mk_context [] [] [] [].

Definition is_comment_line (line : pystr) : bool :=
  startswith line (lit "#") || startswith line (lit "//").

Definition is_todo (comment : pystr) : bool :=
  contains (lower comment) (lit "todo") || contains (lower comment) (lit "fixme").

(** One iteration of the [for line in lines] loop. *)
Definition process_line (ctx : code_context) (raw : pystr) : code_context :=
  let line := strip raw in
  let ctx1 :=
    if is_comment_line line then
      let comment := strip_comment_marker line in
      let ctx' := mk_context (comments ctx ++ [comment]) (functions ctx)
                    (variables ctx) (todo_items ctx) in
      if is_todo comment then
        mk_context (comments ctx') (functions ctx') (variables ctx')
          (todo_items ctx' ++ [comment])
      else ctx'
    else ctx in
  let ctx2 :=
    match re_search_def line with
    | Some f => mk_context (comments ctx1) (functions ctx1 ++ [f])
                  (variables ctx1) (todo_items ctx1)
    | None => ctx1
    end in
  match match_var line with
  | Some v => mk_context (comments ctx2) (functions ctx2)
                (variables ctx2 ++ [v]) (todo_items ctx2)
  | None => ctx2
  end.

Definition extract_code_context (code_text : pystr) : code_context :=
  fold_left process_line (split_nl code_text) empty_context.

(** [l1] is a subsequence of [l2]. *)
Inductive subseq {A : Type} : list A -> list A -> Prop :=
| subseq_nil : subseq [] []
| subseq_take x l1 l2 : subseq l1 l2 -> subseq (x :: l1) (x :: l2)
| subseq_skip x l1 l2 : subseq l1 l2 -> subseq l1 (x :: l2).

(** ** Effects: printing, the two pipelines and exceptions *)

(** A raised Python exception; [exn_is_Exception] tells whether its class
    derives from [Exception] (false for [KeyboardInterrupt], [SystemExit],
    [GeneratorExit], which derive from [BaseException] only). *)
Record exn := mk_exn {
  exn_type : pystr;
  exn_msg : pystr;
  exn_is_Exception : bool
}.

Inductive outcome (A : Type) : Type :=
| Ok (a : A)
| Raise (e : exn).
Arguments Ok {A} a.
Arguments Raise {A} e.

(** One element of a [transformers] text-classification pipeline result. *)
Record prediction := mk_prediction { label : pystr; score : Q }.

(** A pipeline: its result for a text, or the exception it raises. *)
Definition pipeline := pystr -> outcome (list prediction).

(** What the program observes of the outside world: the lines printed, the
    pipeline invocations (pipeline name, input text) and the clock. *)
Record world := mk_world {
  stdout : list pystr;
  calls : list (pystr * pystr);
  clock : pystr
}.

(** State and exception monad over [world]. *)
Definition M (A : Type) : Type := world -> outcome A * world.

Definition ret {A} (a : A) : M A := fun w => (Ok a, w).

Definition bind {A B} (m : M A) (k : A -> M B) : M B :=
  fun w =>
    match m w with
    | (Ok a, w') => k a w'
    | (Raise e, w') => (Raise e, w')
    end.

Notation "x <- m ;; k" := (bind m (fun x => k))
  (at level 61, m at next level, right associativity).
Notation "m ;;; k" := (bind m (fun _ => k))
  (at level 61, right associativity).

Definition raise {A} (e : exn) : M A := fun w => (Raise e, w).

(** [try: m except Exception as e: h e] *)
Definition try_except_Exception {A} (m : M A) (h : exn -> M A) : M A :=
  fun w =>
    match m w with
    | (Raise e, w') => if exn_is_Exception e then h e w' else (Raise e, w')
    | r => r
    end.

Definition print (s : pystr) : M unit :=
  fun w => (Ok tt, mk_world (stdout w ++ [s]) (calls w) (clock w)).

(** [datetime.now().isoformat()] *)
Definition now_isoformat : M pystr := fun w => (Ok (clock w), w).

Definition call_pipeline (name : pystr) (p : pipeline) (text : pystr)
  : M (list prediction) :=
  fun w => (p text, mk_world (stdout w) (calls w ++ [(name, text)]) (clock w)).

Definition IndexError : exn :=
  mk_exn (lit "IndexError") (lit "list index out of range") true.

(** [l[0]] *)
Definition getitem0 {A} (l : list A) : M A :=
  match l with
  | a :: _ => ret a
  | [] => raise IndexError
  end.

(** ** Python dictionaries of the analysis result *)

Inductive pyval :=
| PStr (s : pystr)
| PFloat (q : Q).

Definition pydict := list (pystr * pyval).

(** [d.get(k, default)] *)
Definition dict_get (d : pydict) (k : pystr) (default : pyval) : pyval :=
  match find (fun kv => pystr_eqb (fst kv) k) d with
  | Some (_, v) => v
  | None => default
  end.

Definition neutral_default : pydict :=
  [(lit "emotion", PStr (lit "neutral")); (lit "sentiment", PStr (lit "neutral"));
   (lit "confidence", PFloat (1 # 2))].

(** ** [analyze_developer_emotion] *)

Section Reviewer.

Variable emotion_classifier : pipeline.
Variable sentiment_analyzer : pipeline.

Definition analyze_developer_emotion (text_elements : list pystr) : M pydict :=
  match text_elements with
  | [] => ret neutral_default
  | _ :: _ =>
      let combined_text := join (lit " ") text_elements in
      try_except_Exception
        (emotion_result <-
           (r <- call_pipeline (lit "emotion_classifier") emotion_classifier
                   combined_text ;; getitem0 r) ;;
         sentiment_result <-
           (r <- call_pipeline (lit "sentiment_analyzer") sentiment_analyzer
                   combined_text ;; getitem0 r) ;;
         ret [(lit "emotion", PStr (lower (label emotion_result)));
              (lit "emotion_confidence", PFloat (score emotion_result));
              (lit "sentiment", PStr (lower (label sentiment_result)));
              (lit "sentiment_confidence", PFloat (score sentiment_result))])
        (fun e =>
           print (lit " Analysis error: " ++ exn_msg e) ;;;
           ret neutral_default)
  end.


(** ** [generate_personalized_feedback] *)

Record feedback := mk_feedback {
  emotional_insights : list pystr;
  code_suggestions : list pystr;
  motivational_notes : list pystr;
  technical_recommendations : list pystr
}.

Definition add_insight (fb : feedback) (s : pystr) : feedback :=
  mk_feedback (emotional_insights fb ++ [s]) (code_suggestions fb)
    (motivational_notes fb) (technical_recommendations fb).
Definition add_suggestion (fb : feedback) (s : pystr) : feedback :=
  mk_feedback (emotional_insights fb) (code_suggestions fb ++ [s])
    (motivational_notes fb) (technical_recommendations fb).
Definition add_note (fb : feedback) (s : pystr) : feedback :=
  mk_feedback (emotional_insights fb) (code_suggestions fb)
    (motivational_notes fb ++ [s]) (technical_recommendations fb).
Definition add_recommendation (fb : feedback) (s : pystr) : feedback :=
  mk_feedback (emotional_insights fb) (code_suggestions fb)
    (motivational_notes fb) (technical_recommendations fb ++ [s]).

(** Python [==] on the values of the analysis dictionary. *)
Definition pyval_eqb (a b : pyval) : bool :=
  match a, b with
  | PStr x, PStr y => pystr_eqb x y
  | PFloat x, PFloat y => Qeq_bool x y
  | _, _ => false
  end.

(** [str(n)] for a natural number. *)
Definition str_of_nat (n : nat) : pystr :=
  lit (NilEmpty.string_of_uint (Nat.to_uint n)).

Definition msg_annoyed : pystr :=
  lit " Sounds like your kinda annoyed in your comments. Just chill out - coding problems are good for you!".
Definition msg_everyone_was_bad : pystr :=
  lit " Remeber: everyone good at this was bad once. Ur getting there!".
Definition msg_good_vibe : pystr :=
  lit " Really good vibe in your code! Your happy feelings comes through in comments.".
Definition msg_hard_time : pystr :=
  lit " Looks like your having a hard time coding. Take a break, or ask for help, don't be shy!".
Definition msg_more_comments : pystr :=
  lit " Maybe put more comments in to say what your doing - you (and your friends) will be happy later!".
Definition msg_todos (n : nat) : pystr :=
  lit " You got " ++ str_of_nat n
  ++ lit " TODO stuff to do. How about doin' some of those first, then adding new things?".
Definition msg_be_kind : pystr :=
  lit " I see you saying bad things about your code. Try to make it better instead of being mean to yourself!".
Definition msg_short_vars (names : list pystr) : pystr :=
  lit " Try to use longer names for variables like: " ++ join (lit ", ") names.

Definition bad_words : list pystr :=
  [lit "hack"; lit "dirty"; lit "terrible"; lit "broken"].

Definition is_short_var (v : pystr) : bool := List.length v <=? 2.

Definition generate_personalized_feedback (code_context0 : code_context)
    (emotion_analysis : pydict) (commit_msg : pystr) : feedback :=
  let fb := mk_feedback [] [] [] [] in
  let emotion := dict_get emotion_analysis (lit "emotion") (PStr (lit "neutral")) in
  let _sentiment := dict_get emotion_analysis (lit "sentiment") (PStr (lit "neutral")) in
  let fb :=
    if existsb (pyval_eqb emotion) [PStr (lit "anger"); PStr (lit "frustration")] then
      add_note (add_insight fb msg_annoyed) msg_everyone_was_bad
    else if pyval_eqb emotion (PStr (lit "joy")) then add_insight fb msg_good_vibe
    else if pyval_eqb emotion (PStr (lit "sadness")) then add_insight fb msg_hard_time
    else fb in
  let fb :=
    if List.length (comments code_context0) =? 0 then add_suggestion fb msg_more_comments
    else fb in
  let fb :=
    if 3 <? List.length (todo_items code_context0)
    then add_suggestion fb (msg_todos (List.length (todo_items code_context0)))
    else fb in
  let fb :=
    if existsb (fun word => contains (lower (join (lit " ") (comments code_context0))) word)
         bad_words
    then add_recommendation fb msg_be_kind
    else fb in
  match variables code_context0 with
  | [] => fb
  | _ :: _ =>
      let short_vars := filter is_short_var (variables code_context0) in
      if 2 <? List.length short_vars
      then add_recommendation fb (msg_short_vars (firstn 3 short_vars))
      else fb
  end.

(** ** [review_code] *)

Record code_metrics_t := mk_metrics {
  comments_count : nat;
  functions_count : nat;
  todo_count : nat
}.

Record report := mk_report {
  developer : pystr;
  timestamp : pystr;
  emotion_analysis : pydict;
  code_metrics : code_metrics_t;
  report_feedback : feedback
}.

(** [context['comments'] + [commit_message] if commit_message else context['comments']] *)
Definition text_for_analysis (context : code_context) (commit_message : pystr)
  : list pystr :=
  match commit_message with
  | [] => comments context
  | _ :: _ => comments context ++ [commit_message]
  end.

Definition review_code (code_text commit_message developer_name : pystr) : M report :=
  print ([nl] ++ lit " Looking at code for " ++ developer_name ++ lit "...") ;;;
  let context := extract_code_context code_text in
  emotion_analysis <-
    analyze_developer_emotion (text_for_analysis context commit_message) ;;
  let fb := generate_personalized_feedback context emotion_analysis commit_message in
  timestamp <- now_isoformat ;;
  ret (mk_report developer_name timestamp emotion_analysis
         (mk_metrics (List.length (comments context)) (List.length (functions context))
            (List.length (todo_items context)))
         fb).

End Reviewer.

(** ** Auxiliary definitions for the statements *)

Definition opt_list {A} (o : option A) : list A :=
  match o with Some x => [x] | None => [] end.

(** The loop invariant of [extract_code_context] about TODO items. *)
Definition todo_inv (ctx : code_context) : Prop :=
  subseq (todo_items ctx) (comments ctx) /\
  Forall (fun t => is_todo t = true) (todo_items ctx).

(** The line [s = "def helper"]. *)
Definition string_literal_line : pystr :=
  lit "s = " ++ [dq] ++ lit "def helper" ++ [dq].

(** A pipeline that always answers "JOY", as a test double. *)
Definition joy_pipeline : pipeline :=
  fun _ => Ok [mk_prediction (lit "JOY") (9 # 10)].

Definition KeyboardInterrupt : exn := mk_exn (lit "KeyboardInterrupt") [] false.

Definition RuntimeError (msg : pystr) : exn := mk_exn (lit "RuntimeError") msg true.

Definition world0 : world := mk_world [] [] (lit "2025-01-01T00:00:00").

Definition diagnostic (e : exn) : pystr := lit " Analysis error: " ++ exn_msg e.

(** What the [except Exception] clause does with [e] raised in world [w]. *)
Definition handled (e : exn) (w : world) : outcome pydict * world :=
  if exn_is_Exception e
  then (Ok neutral_default, mk_world (stdout w ++ [diagnostic e]) (calls w) (clock w))
  else (Raise e, w).

Definition log_call (w : world) (name text : pystr) : world :=
  mk_world (stdout w) (calls w ++ [(name, text)]) (clock w).

Definition analysis_dict (er sr : prediction) : pydict :=
  [(lit "emotion", PStr (lower (label er)));
   (lit "emotion_confidence", PFloat (score er));
   (lit "sentiment", PStr (lower (label sr)));
   (lit "sentiment_confidence", PFloat (score sr))].

(** The sample code of [main]'s [--demo] branch. *)
Definition demo_code : pystr :=
  join [nl]
    [[];
     lit "# This is a terrible hack but I can't figure out the right way";
     lit "def calculate_stuff(x, y):";
     lit "    # TODO: fix this mess later";
     lit "    # I hate this function, it's so confusing";
     lit "    result = x * y + 42  # why 42? I have no idea anymore";
     lit "    return result";
     [];
     lit "# Another TODO: refactor everything";
     lit "def main():";
     lit "    # This probably won't work but whatever";
     lit "    a = 5";
     lit "    b = 10";
     lit "    print(calculate_stuff(a, b))  # fingers crossed";
     []].

Definition demo_commit : pystr :=
  lit "ughhh fixed the bug but created 3 more problems... why is coding so hard today".

(** ** [print_report] *)

Definition AttributeError_title : exn :=
  mk_exn (lit "AttributeError") (lit "'float' object has no attribute 'title'") true.

(** ["="*60] *)
Definition rule60 : pystr := repeat "="%char 60.

Section Printing.

(** [str.title()].  It is left abstract: on Latin-1 text its result can
    leave the Latin-1 range (the title case of ['\xb5'] is U+039C), which
    [pystr] cannot hold. *)
Variable str_title : pystr -> pystr.

(** [v.title()] on a value of the analysis dictionary; a [float] has no
    [title] attribute. *)
Definition py_title (v : pyval) : M pystr :=
  match v with
  | PStr s => ret (str_title s)
  | PFloat _ => raise AttributeError_title
  end.

(** [for x in items: print(f"   - {x}")] *)
Fixpoint print_entries (items : list pystr) : M unit :=
  match items with
  | [] => ret tt
  | x :: r => print (lit "   - " ++ x) ;;; print_entries r
  end.

(** [if items: print(header); for x in items: ...] *)
Definition print_section (header : pystr) (items : list pystr) : M unit :=
  match items with
  | [] => ret tt
  | _ :: _ => print header ;;; print_entries items
  end.

Definition print_report (r : report) : M unit :=
  print ([nl] ++ rule60) ;;;
  print (lit " EMOTION-DRIVEN CODE REVIEW REPORT") ;;;
  print (lit " Developer: " ++ developer r) ;;;
  print (lit " Time: " ++ timestamp r) ;;;
  print rule60 ;;;
  let emotion := emotion_analysis r in
  print ([nl] ++ lit " EMOTIONAL STATE ANALYSIS:") ;;;
  e <- py_title (dict_get emotion (lit "emotion") (PStr (lit "N/A"))) ;;
  print (lit "   Primary Emotion: " ++ e) ;;;
  s <- py_title (dict_get emotion (lit "sentiment") (PStr (lit "N/A"))) ;;
  print (lit "   Overall Sentiment: " ++ s) ;;;
  let metrics := code_metrics r in
  print ([nl] ++ lit " CODE METRICS:") ;;;
  print (lit "   Comments: " ++ str_of_nat (comments_count metrics)) ;;;
  print (lit "   Functions: " ++ str_of_nat (functions_count metrics)) ;;;
  print (lit "   TODO Items: " ++ str_of_nat (todo_count metrics)) ;;;
  let fb := report_feedback r in
  print_section ([nl] ++ lit " EMOTIONAL INSIGHTS:") (emotional_insights fb) ;;;
  print_section ([nl] ++ lit " CODE SUGGESTIONS:") (code_suggestions fb) ;;;
  print_section ([nl] ++ lit " TECHNICAL RECOMMENDATIONS:") (technical_recommendations fb) ;;;
  print_section ([nl] ++ lit " MOTIVATIONAL NOTES:") (motivational_notes fb) ;;;
  print ([nl] ++ rule60).

End Printing.

(** ** [main] *)

(** The namespace [argparse] returns: [--file] (default [None]),
    [--commit] (default [""]), [--name] (default ["Developer"]) and the
    [--demo] flag. *)
Record cli_args := mk_args {
  arg_file : option pystr;
  arg_commit : pystr;
  arg_name : pystr;
  arg_demo : bool
}.

(** [isinstance(e, FileNotFoundError)] *)
Definition is_FileNotFoundError (e : exn) : bool :=
  pystr_eqb (exn_type e) (lit "FileNotFoundError").

(** The two [pipeline(task, model=...)] constructions of
    [EmotionCodeReviewer.__init__]. *)
Definition emotion_task : pystr := lit "text-classification".
Definition emotion_model : pystr := lit "j-hartmann/emotion-english-distilroberta-base".
Definition sentiment_task : pystr := lit "sentiment-analysis".
Definition sentiment_model : pystr :=
  lit "distilbert-base-uncased-finetuned-sst-2-english".

Section CLI.

(** [transformers.pipeline(task, model=model, device=-1)]: the pipeline it
    builds, or the exception it raises (a model that cannot be downloaded
    or loaded raises [OSError], for instance). *)
Variable pipeline_factory : pystr -> pystr -> outcome pipeline.
Variable str_title : pystr -> pystr.
(** [open(path, 'r').read()]: the file's text, or the exception raised by
    [open] or [read]. *)
Variable read_file : pystr -> outcome pystr.

Definition build_pipeline (task model : pystr) : M pipeline :=
  fun w => (pipeline_factory task model, w).

(** [EmotionCodeReviewer()]: the reviewer is the pair of its pipelines. *)
Definition reviewer_init : M (pipeline * pipeline) :=
  print (lit " Loading emotion analysis models...") ;;;
  emotion_classifier <- build_pipeline emotion_task emotion_model ;;
  sentiment_analyzer <- build_pipeline sentiment_task sentiment_model ;;
  print (lit " Models loaded good!") ;;;
  ret (emotion_classifier, sentiment_analyzer).

Definition open_read (path : pystr) : M pystr := fun w => (read_file path, w).

(** [try: m except FileNotFoundError: ... except Exception as e: ...] *)
Definition try_file (path : pystr) (m : M unit) : M unit :=
  fun w =>
    match m w with
    | (Raise e, w') =>
        if is_FileNotFoundError e then print (lit " File " ++ path ++ lit " not found!") w'
        else if exn_is_Exception e then print (lit " Error reading file: " ++ exn_msg e) w'
        else (Raise e, w')
    | r => r
    end.

Definition main (args : cli_args) : M unit :=
  reviewer <- reviewer_init ;;
  let (emotion_classifier, sentiment_analyzer) := reviewer in
  if arg_demo args then
    print (lit " Running demo with emotionally-charged sample code...") ;;;
    report <- review_code emotion_classifier sentiment_analyzer demo_code demo_commit
                (lit "Demo Developer") ;;
    print_report str_title report
  else
    match arg_file args with
    | Some ((_ :: _) as path) =>
        try_file path
          (code <- open_read path ;;
           report <- review_code emotion_classifier sentiment_analyzer code
                       (arg_commit args) (arg_name args) ;;
           print_report str_title report)
    | _ =>
        print (lit " Please provide --file or use --demo") ;;;
        print (lit "Example: python emotion_code_reviewer.py --demo") ;;;
        print (lit "         python emotion_code_reviewer.py --file my_script.py --commit 'Added new feature'")
    end.

End CLI.

(** ** Auxiliary definitions for the statements about the rest of the code *)

(** Field-wise concatenation of two extraction results. *)
Definition ctx_app (a b : code_context) : code_context :=
  mk_context (comments a ++ comments b) (functions a ++ functions b)
    (variables a ++ variables b) (todo_items a ++ todo_items b).

(** A non-empty identifier, i.e. a match of [\w+]. *)
Definition is_ident (s : pystr) : Prop := s <> [] /\ forallb is_word s = true.

(** The banner [review_code] prints first. *)
Definition looking_at (name : pystr) : pystr :=
  [nl] ++ lit " Looking at code for " ++ name ++ lit "...".

(** The lines printed for one feedback section of the report. *)
Definition section_lines (header : pystr) (items : list pystr) : list pystr :=
  match items with
  | [] => []
  | _ :: _ => header :: map (fun x => lit "   - " ++ x) items
  end.

(** The lines of a printed report whose emotion and sentiment print as
    [e] and [s]. *)
Definition report_lines (r : report) (e s : pystr) : list pystr :=
  [[nl] ++ rule60; lit " EMOTION-DRIVEN CODE REVIEW REPORT";
   lit " Developer: " ++ developer r; lit " Time: " ++ timestamp r; rule60;
   [nl] ++ lit " EMOTIONAL STATE ANALYSIS:";
   lit "   Primary Emotion: " ++ e; lit "   Overall Sentiment: " ++ s;
   [nl] ++ lit " CODE METRICS:";
   lit "   Comments: " ++ str_of_nat (comments_count (code_metrics r));
   lit "   Functions: " ++ str_of_nat (functions_count (code_metrics r));
   lit "   TODO Items: " ++ str_of_nat (todo_count (code_metrics r))]
  ++ section_lines ([nl] ++ lit " EMOTIONAL INSIGHTS:")
       (emotional_insights (report_feedback r))
  ++ section_lines ([nl] ++ lit " CODE SUGGESTIONS:") (code_suggestions (report_feedback r))
  ++ section_lines ([nl] ++ lit " TECHNICAL RECOMMENDATIONS:")
       (technical_recommendations (report_feedback r))
  ++ section_lines ([nl] ++ lit " MOTIVATIONAL NOTES:")
       (motivational_notes (report_feedback r))
  ++ [[nl] ++ rule60].

Definition init_lines : list pystr :=
  [lit " Loading emotion analysis models..."; lit " Models loaded good!"].

Definition usage_lines : list pystr :=
  [lit " Please provide --file or use --demo";
   lit "Example: python emotion_code_reviewer.py --demo";
   lit "         python emotion_code_reviewer.py --file my_script.py --commit 'Added new feature'"].

(** What [main] prints when reading [path] raised [e]. *)
Definition file_error_line (path : pystr) (e : exn) : pystr :=
  if is_FileNotFoundError e then lit " File " ++ path ++ lit " not found!"
  else lit " Error reading file: " ++ exn_msg e.

Definition FileNotFoundError (path : pystr) : exn :=
  mk_exn (lit "FileNotFoundError")
    (lit "[Errno 2] No such file or directory: '" ++ path ++ lit "'") true.

(** [pipeline(...)] building [joy_pipeline] for every model. *)
Definition joy_factory : pystr -> pystr -> outcome pipeline := fun _ _ => Ok joy_pipeline.

Definition OSError_model : exn :=
  mk_exn (lit "OSError") (lit "model not found") true.

(** [pipeline(...)] failing for the emotion model. *)
Definition no_emotion_model_factory : pystr -> pystr -> outcome pipeline :=
  fun task _ => if pystr_eqb task emotion_task then Raise OSError_model else Ok joy_pipeline.

(** The exception the [try] body of [analyze_developer_emotion] raises on
    the joined text [j], if any: from the emotion model, from its [[0]],
    from the sentiment model or from its [[0]], in that order. *)
Definition first_failure (ec sa : pipeline) (j : pystr) : option exn :=
  match ec j with
  | Raise e => Some e
  | Ok [] => Some IndexError
  | Ok (_ :: _) =>
      match sa j with
      | Raise e => Some e
      | Ok [] => Some IndexError
      | Ok (_ :: _) => None
      end
  end.

(** The line [l] assigns [v]: leading whitespace, [v], optional
    whitespace, then ['=']. *)
Definition assigns_to (v l : pystr) : Prop :=
  exists ind ws rest, forallb isspace ind = true /\ forallb isspace ws = true /\
    l = ind ++ v ++ ws ++ "="%char :: rest.

(** A report whose analysis holds a number under ["emotion"]. *)
Definition numeric_emotion_report : report :=
  mk_report (lit "Dev") (lit "2025-01-01T00:00:00") [(lit "emotion", PFloat (1 # 2))]
    (mk_metrics 0 0 0) (mk_feedback [] [] [] []).

(** * Lemmas about the string model *)

Lemma isspace_not_word : forall c, isspace c = true -> is_word c = false.
Proof.
  intros c H; destruct c as [[] [] [] [] [] [] [] []];
    vm_compute in H; vm_compute; congruence.
Qed.

Lemma word_not_space : forall c, is_word c = true -> isspace c = false.
Proof.
  intros c H; destruct (isspace c) eqn:E; [|reflexivity].
  rewrite (isspace_not_word c E) in H; discriminate.
Qed.

Lemma lstrip_app : forall a b,
  lstrip (a ++ b) = if forallb isspace a then lstrip b else lstrip a ++ b.
Proof.
  induction a as [|c a IH]; intros b; [reflexivity|].
  simpl; destruct (isspace c); simpl; [apply IH|reflexivity].
Qed.

Lemma lstrip_nonspace : forall c r, isspace c = false -> lstrip (c :: r) = c :: r.
Proof. intros c r H; simpl; rewrite H; reflexivity. Qed.

Lemma lstrip_core : forall pre c r, isspace c = false ->
  exists x, lstrip (pre ++ c :: r) = x ++ c :: r.
Proof.
  intros pre c r H; rewrite lstrip_app.
  destruct (forallb isspace pre).
  - exists []; apply lstrip_nonspace; assumption.
  - exists (lstrip pre); reflexivity.
Qed.

Lemma rstrip_core : forall l d post, isspace d = false ->
  exists y, rstrip (l ++ d :: post) = l ++ d :: y.
Proof.
  intros l d post H; unfold rstrip.
  rewrite rev_app_distr; simpl; rewrite <- app_assoc; simpl.
  rewrite lstrip_app; destruct (forallb isspace (rev post)).
  - exists []; rewrite lstrip_nonspace by assumption.
    simpl; rewrite rev_involutive; reflexivity.
  - exists (rev (lstrip (rev post))).
    rewrite rev_app_distr; simpl; rewrite rev_involutive, <- app_assoc; reflexivity.
Qed.

(** Stripping keeps any infix that starts and ends with a non-space. *)
Lemma strip_core : forall pre m post c m0 m1 d,
  m = c :: m0 -> m = m1 ++ [d] -> isspace c = false -> isspace d = false ->
  exists x y, strip (pre ++ m ++ post) = x ++ m ++ y.
Proof.
  intros pre m post c m0 m1 d Hc Hd Sc Sd; unfold strip.
  destruct (lstrip_core pre c (m0 ++ post) Sc) as [x Hx].
  replace (pre ++ m ++ post) with (pre ++ c :: m0 ++ post) by (subst; reflexivity).
  rewrite Hx.
  replace (x ++ c :: m0 ++ post) with ((x ++ m1) ++ d :: post)
    by (rewrite <- app_assoc; f_equal; rewrite app_comm_cons, <- Hc, Hd, <- app_assoc;
        reflexivity).
  destruct (rstrip_core (x ++ m1) d post Sd) as [y Hy].
  rewrite Hy; exists x, y; rewrite Hd, <- !app_assoc; reflexivity.
Qed.

Lemma take_while_app_all : forall f a b,
  forallb f a = true -> take_while f (a ++ b) = a ++ take_while f b.
Proof.
  intros f; induction a as [|c a IH]; intros b H; [reflexivity|].
  simpl in *; apply andb_true_iff in H as [H1 H2]; rewrite H1, IH; auto.
Qed.

Lemma drop_while_app_all : forall f a b,
  forallb f a = true -> drop_while f (a ++ b) = drop_while f b.
Proof.
  intros f; induction a as [|c a IH]; intros b H; [reflexivity|].
  simpl in *; apply andb_true_iff in H as [H1 H2]; rewrite H1, IH; auto.
Qed.

Lemma take_while_stop : forall f c r, f c = false -> take_while f (c :: r) = [].
Proof. intros f c r H; simpl; rewrite H; reflexivity. Qed.

Lemma drop_while_stop : forall f c r, f c = false -> drop_while f (c :: r) = c :: r.
Proof. intros f c r H; simpl; rewrite H; reflexivity. Qed.

(** * Per-line effect of [process_line] *)

Ltac destruct_ifs :=
  repeat match goal with
  | |- context [if ?b then _ else _] => destruct b
  | |- context [match ?o with Some _ => _ | None => _ end] => destruct o
  end.

Lemma process_line_comments : forall ctx raw,
  comments (process_line ctx raw) = comments ctx
    ++ (if is_comment_line (strip raw) then [strip_comment_marker (strip raw)] else []).
Proof. intros; unfold process_line; cbv zeta; destruct_ifs; simpl; auto using app_nil_r. Qed.

Lemma process_line_todo_items : forall ctx raw,
  todo_items (process_line ctx raw) = todo_items ctx
    ++ (if is_comment_line (strip raw) && is_todo (strip_comment_marker (strip raw))
        then [strip_comment_marker (strip raw)] else []).
Proof.
  intros; unfold process_line; cbv zeta.
  destruct (is_comment_line (strip raw));
    [destruct (is_todo (strip_comment_marker (strip raw)))|];
    destruct (match_var (strip raw)), (re_search_def (strip raw));
    simpl; auto using app_nil_r.
Qed.

Lemma process_line_functions : forall ctx raw,
  functions (process_line ctx raw) = functions ctx ++ opt_list (re_search_def (strip raw)).
Proof. intros; unfold process_line; cbv zeta; destruct_ifs; simpl; auto using app_nil_r. Qed.

Lemma process_line_variables : forall ctx raw,
  variables (process_line ctx raw) = variables ctx ++ opt_list (match_var (strip raw)).
Proof. intros; unfold process_line; cbv zeta; destruct_ifs; simpl; auto using app_nil_r. Qed.

(** * The regular expressions on the lines they are meant for *)

Lemma forallb_app_true : forall (f : ascii -> bool) a b,
  forallb f (a ++ b) = true <-> forallb f a = true /\ forallb f b = true.
Proof. intros; rewrite forallb_app; apply andb_true_iff. Qed.

Lemma match_var_assignment : forall w ws rest,
  w <> [] -> forallb is_word w = true -> forallb isspace ws = true ->
  match_var (w ++ ws ++ "="%char :: rest) = Some w.
Proof.
  intros w ws rest Hw Hword Hws; unfold match_var.
  assert (Hstop : take_while is_word (ws ++ "="%char :: rest) = []).
  { destruct ws as [|c ws]; [reflexivity|].
    simpl in Hws; apply andb_true_iff in Hws as [Hc _].
    apply take_while_stop, isspace_not_word; assumption. }
  assert (Hdrop : drop_while is_word (ws ++ "="%char :: rest) = ws ++ "="%char :: rest).
  { destruct ws as [|c ws]; [reflexivity|].
    simpl in Hws; apply andb_true_iff in Hws as [Hc _].
    apply drop_while_stop, isspace_not_word; assumption. }
  rewrite take_while_app_all, Hstop, app_nil_r by assumption.
  rewrite drop_while_app_all, Hdrop, drop_while_app_all by assumption.
  destruct w; [contradiction|reflexivity].
Qed.

(** Shared by the assignment claims: a line made of optional leading
    whitespace, an identifier, optional whitespace and ['='] adds that
    identifier to [variables]. *)
Lemma process_line_assignment : forall ctx raw ind w ws rest,
  forallb isspace ind = true -> w <> [] -> forallb is_word w = true ->
  forallb isspace ws = true ->
  raw = ind ++ w ++ ws ++ "="%char :: rest ->
  variables (process_line ctx raw) = variables ctx ++ [w].
Proof.
  intros ctx raw ind w ws rest Hind Hw Hword Hws ->.
  rewrite process_line_variables; f_equal.
  destruct w as [|c w0]; [contradiction|].
  simpl in Hword; apply andb_true_iff in Hword as [Hc Hw0].
  assert (Hl : lstrip (ind ++ (c :: w0) ++ ws ++ "="%char :: rest)
               = (c :: w0) ++ ws ++ "="%char :: rest)
    by (rewrite lstrip_app, Hind; simpl; rewrite (word_not_space c Hc); reflexivity).
  unfold strip; rewrite Hl.
  destruct (rstrip_core ((c :: w0) ++ ws) "="%char rest eq_refl) as [y Hy].
  rewrite app_assoc, Hy, <- app_assoc.
  rewrite match_var_assignment; [reflexivity|discriminate|simpl; rewrite Hc; exact Hw0|exact Hws].
Qed.

Lemma is_comment_line_head : forall line,
  is_comment_line line = true ->
  exists c r, line = c :: r /\ is_hash_slash c = true.
Proof.
  intros [|c r] H; [discriminate|].
  exists c, r; split; [reflexivity|].
  unfold is_comment_line, lit in H; cbn [list_ascii_of_string startswith] in H.
  unfold is_hash_slash.
  apply orb_true_iff in H as [H|H]; apply andb_true_iff in H as [H _];
    apply Ascii.eqb_eq in H; subst; reflexivity.
Qed.

Lemma match_var_comment : forall line,
  is_comment_line line = true -> match_var line = None.
Proof.
  intros line H; destruct (is_comment_line_head line H) as (c & r & -> & Hc).
  unfold match_var; rewrite take_while_stop; [reflexivity|].
  unfold is_hash_slash in Hc; apply orb_true_iff in Hc as [Hc|Hc];
    apply Ascii.eqb_eq in Hc; subst; reflexivity.
Qed.

Lemma match_def_at_def : forall ws w post,
  ws <> [] -> forallb isspace ws = true -> w <> [] -> forallb is_word w = true ->
  exists f, match_def_at (lit "def" ++ ws ++ w ++ post) = Some f.
Proof.
  intros ws w post Hws Sws Hw Ww; unfold match_def_at.
  assert (Hp : startswith (lit "def" ++ ws ++ w ++ post) (lit "def") = true)
    by reflexivity.
  assert (Hk : skipn 3 (lit "def" ++ ws ++ w ++ post) = ws ++ w ++ post)
    by reflexivity.
  rewrite Hp, Hk.
  destruct w as [|c w0]; [contradiction|].
  assert (Sc : isspace c = false)
    by (simpl in Ww; apply andb_true_iff in Ww as [Ww _]; apply word_not_space, Ww).
  rewrite take_while_app_all, drop_while_app_all by assumption.
  rewrite <- app_comm_cons, take_while_stop, drop_while_stop by assumption.
  rewrite app_comm_cons, take_while_app_all by assumption.
  destruct ws as [|s ws]; [contradiction|].
  eexists; reflexivity.
Qed.

Lemma re_search_def_infix : forall pre l f,
  match_def_at l = Some f -> exists g, re_search_def (pre ++ l) = Some g.
Proof.
  induction pre as [|c pre IH]; intros l f H.
  - destruct l as [|c l]; [discriminate|].
    simpl; rewrite H; eauto.
  - simpl; destruct (match_def_at (c :: pre ++ l)); [eauto|].
    eapply IH; eassumption.
Qed.

(** Shared by the function claims: a line that contains ["def"], some
    whitespace and an identifier anywhere adds one name to [functions]. *)
Lemma process_line_def_infix : forall ctx raw pre ws w post,
  ws <> [] -> forallb isspace ws = true -> w <> [] -> forallb is_word w = true ->
  raw = pre ++ lit "def" ++ ws ++ w ++ post ->
  exists f, functions (process_line ctx raw) = functions ctx ++ [f].
Proof.
  intros ctx raw pre ws w post Hws Sws Hw Ww ->.
  rewrite process_line_functions.
  destruct (exists_last Hw) as (w1 & d & Hd).
  assert (Sd : isspace d = false).
  { apply word_not_space; subst w; apply forallb_app_true in Ww as [_ Ww].
    simpl in Ww; destruct (is_word d); [reflexivity|discriminate]. }
  destruct (strip_core pre (lit "def" ++ ws ++ w) post "d"%char ((lit "ef") ++ ws ++ w)
              ((lit "def") ++ ws ++ w1) d eq_refl) as (x & y & Hs);
    [subst w; rewrite !app_assoc; reflexivity|reflexivity|assumption|].
  rewrite <- !app_assoc in Hs; rewrite Hs.
  destruct (match_def_at_def ws w y Hws Sws Hw Ww) as [f Hf].
  destruct (re_search_def_infix x _ _ Hf) as [g Hg].
  rewrite Hg; exists g; reflexivity.
Qed.

(** * Subsequences *)

Lemma subseq_refl {A} : forall l : list A, subseq l l.
Proof. induction l; constructor; assumption. Qed.

Lemma subseq_nil_l {A} : forall l : list A, subseq [] l.
Proof. induction l; constructor; assumption. Qed.

Lemma subseq_app {A} : forall a b c d : list A,
  subseq a b -> subseq c d -> subseq (a ++ c) (b ++ d).
Proof.
  intros a b c d H1 H2; induction H1; simpl; try constructor; assumption.
Qed.

Lemma subseq_length {A} : forall l1 l2 : list A,
  subseq l1 l2 -> List.length l1 <= List.length l2.
Proof. intros l1 l2 H; induction H; simpl; lia. Qed.

Lemma subseq_app_r {A} : forall a b d : list A, subseq a b -> subseq a (b ++ d).
Proof.
  intros a b d H; rewrite <- (app_nil_r a); apply subseq_app;
    [assumption|apply subseq_nil_l].
Qed.

Lemma process_line_todo_inv : forall ctx raw,
  todo_inv ctx -> todo_inv (process_line ctx raw).
Proof.
  intros ctx raw [Hs Hf]; unfold todo_inv.
  rewrite process_line_todo_items, process_line_comments.
  destruct (is_comment_line (strip raw)) eqn:Ec; simpl.
  - destruct (is_todo (strip_comment_marker (strip raw))) eqn:Et; simpl;
      [split|rewrite app_nil_r; split].
    + apply subseq_app; [assumption|apply subseq_refl].
    + apply Forall_app; split; [assumption|constructor; [assumption|constructor]].
    + apply subseq_app_r; assumption.
    + assumption.
  - rewrite !app_nil_r; split; assumption.
Qed.

Lemma fold_process_line_todo_inv : forall lines ctx,
  todo_inv ctx -> todo_inv (fold_left process_line lines ctx).
Proof.
  induction lines as [|l lines IH]; intros ctx H; simpl;
    [assumption|apply IH, process_line_todo_inv, H].
Qed.

(** * Claims about [extract_code_context] *)

(** C1 (as stated, refuted): a comment line is not exclusive of the
    function check.  The line ["# def foo"] is recorded as the comment
    ["def foo"] and also adds ["foo"] to [functions]. *)
Lemma C1_comment_line_also_adds_function :
  extract_code_context (lit "# def foo")
    = mk_context [lit "def foo"] [lit "foo"] [] [] /\
  ~ (forall ctx raw, is_comment_line (strip raw) = true ->
       functions (process_line ctx raw) = functions ctx /\
       variables (process_line ctx raw) = variables ctx).
Proof.
  split; [vm_compute; reflexivity|].
  intros H; destruct (H empty_context (lit "# def foo") eq_refl) as [Hf _].
  vm_compute in Hf; discriminate.
Qed.

(** C1 (amended): a line whose stripped text starts with ['#'] or ['//']
    adds its body to [comments] and never adds anything to [variables];
    the function pattern is still searched on that line. *)
Theorem comment_line_adds_no_variable : forall ctx raw,
  is_comment_line (strip raw) = true ->
  comments (process_line ctx raw) = comments ctx ++ [strip_comment_marker (strip raw)] /\
  variables (process_line ctx raw) = variables ctx /\
  functions (process_line ctx raw)
    = functions ctx ++ opt_list (re_search_def (strip raw)).
Proof.
  intros ctx raw H; split; [|split].
  - rewrite process_line_comments, H; reflexivity.
  - rewrite process_line_variables, match_var_comment by assumption; apply app_nil_r.
  - apply process_line_functions.
Qed.

Lemma comment_line_adds_no_variable_witness :
  is_comment_line (strip (lit "# def foo")) = true /\
  comments (process_line empty_context (lit "# def foo")) = [lit "def foo"] /\
  variables (process_line empty_context (lit "# def foo")) = [] /\
  functions (process_line empty_context (lit "# def foo")) = [lit "foo"].
Proof.
  split; [reflexivity|].
  exact (comment_line_adds_no_variable empty_context (lit "# def foo") eq_refl).
Defined.

(** C3 (as stated, refuted): the indented assignment ["    a = 5"] is
    detected, because the line is stripped before the pattern is tried. *)
Lemma C3_indented_assignment_is_detected :
  variables (extract_code_context (lit "    a = 5")) = [lit "a"] /\
  variables (extract_code_context (lit "    a = 5")) <> [].
Proof. split; vm_compute; [reflexivity|discriminate]. Qed.

(** C3 (amended): variable detection applies to the stripped line, so a
    line made of any leading whitespace, an identifier, optional
    whitespace and ['='] adds that identifier to [variables]. *)
Theorem stripped_assignment_detected : forall ctx raw ind w ws rest,
  forallb isspace ind = true -> w <> [] -> forallb is_word w = true ->
  forallb isspace ws = true ->
  raw = ind ++ w ++ ws ++ "="%char :: rest ->
  variables (process_line ctx raw) = variables ctx ++ [w].
Proof.
  intros ctx raw ind w ws rest H1 H2 H3 H4 H5.
  exact (process_line_assignment ctx raw ind w ws rest H1 H2 H3 H4 H5).
Qed.

Lemma stripped_assignment_detected_witness :
  variables (process_line empty_context (lit "    a = 5")) = [lit "a"].
Proof.
  apply (stripped_assignment_detected empty_context (lit "    a = 5")
           (lit "    ") (lit "a") (lit " ") (lit " 5")); try reflexivity.
  discriminate.
Defined.

(** C5: for every input text, [todo_items] is a subsequence of
    [comments] (so it is no longer), and every TODO item contains "todo"
    or "fixme" after lower-casing. *)
Theorem todo_items_subseq_comments : forall code_text,
  let ctx := extract_code_context code_text in
  subseq (todo_items ctx) (comments ctx) /\
  List.length (todo_items ctx) <= List.length (comments ctx) /\
  Forall (fun t => is_todo t = true) (todo_items ctx).
Proof.
  intros code_text ctx.
  assert (H : todo_inv ctx).
  { apply fold_process_line_todo_inv; split; constructor. }
  destruct H as [Hs Hf]; split; [assumption|split; [|assumption]].
  apply subseq_length; assumption.
Qed.

(** C8: the function pattern is searched anywhere in the line: whenever
    ["def"], at least one whitespace character and an identifier occur in
    a line, one name is appended to [functions], also when the occurrence
    sits in a comment or a string literal. *)
Theorem def_anywhere_adds_function : forall ctx raw pre ws w post,
  ws <> [] -> forallb isspace ws = true -> w <> [] -> forallb is_word w = true ->
  raw = pre ++ lit "def" ++ ws ++ w ++ post ->
  exists f, functions (process_line ctx raw) = functions ctx ++ [f].
Proof.
  intros ctx raw pre ws w post H1 H2 H3 H4 H5.
  exact (process_line_def_infix ctx raw pre ws w post H1 H2 H3 H4 H5).
Qed.

Lemma def_anywhere_adds_function_witness :
  (exists f, functions (process_line empty_context string_literal_line) = [f]) /\
  functions (process_line empty_context string_literal_line) = [lit "helper"].
Proof.
  split; [|vm_compute; reflexivity].
  exact (def_anywhere_adds_function empty_context string_literal_line
           (lit "s = " ++ [dq]) (lit " ") (lit "helper") [dq]
           ltac:(discriminate) eq_refl ltac:(discriminate) eq_refl eq_refl).
Defined.

(** C9: a line whose stripped text starts with an identifier followed
    (after optional whitespace) by ["=="] is taken as an assignment: the
    variable pattern matches the first ['='] of ["=="]. *)
Theorem equality_test_captured_as_variable : forall ctx raw ind w ws rest,
  forallb isspace ind = true -> w <> [] -> forallb is_word w = true ->
  forallb isspace ws = true ->
  raw = ind ++ w ++ ws ++ lit "==" ++ rest ->
  variables (process_line ctx raw) = variables ctx ++ [w].
Proof.
  intros ctx raw ind w ws rest H1 H2 H3 H4 H5.
  exact (process_line_assignment ctx raw ind w ws ("="%char :: rest) H1 H2 H3 H4 H5).
Qed.

Lemma equality_test_captured_as_variable_witness :
  variables (process_line empty_context (lit "x == 5")) = [lit "x"] /\
  variables (extract_code_context (lit "if x == 5:" ++ [nl] ++ lit "x == 5")) = [lit "x"].
Proof.
  split; [|vm_compute; reflexivity].
  exact (equality_test_captured_as_variable empty_context (lit "x == 5") []
           (lit "x") (lit " ") (lit " 5") eq_refl ltac:(discriminate) eq_refl
           eq_refl eq_refl).
Defined.

(** * Claims about [analyze_developer_emotion] *)

Lemma analyze_cons : forall ec sa t ts w,
  let j := join (lit " ") (t :: ts) in
  let w1 := log_call w (lit "emotion_classifier") j in
  let w2 := log_call w1 (lit "sentiment_analyzer") j in
  analyze_developer_emotion ec sa (t :: ts) w =
  match ec j with
  | Raise e => handled e w1
  | Ok [] => handled IndexError w1
  | Ok (er :: _) =>
      match sa j with
      | Raise e => handled e w2
      | Ok [] => handled IndexError w2
      | Ok (sr :: _) => (Ok (analysis_dict er sr), w2)
      end
  end.
Proof.
  intros ec sa t ts w j w1 w2.
  cbv beta iota zeta delta [analyze_developer_emotion try_except_Exception bind
    call_pipeline getitem0 ret raise print].
  fold j; unfold handled, w2, w1, log_call.
  destruct (ec j) as [[|er ers]|e]; [| |destruct (exn_is_Exception e); reflexivity].
  - destruct (exn_is_Exception IndexError); reflexivity.
  - destruct (sa j) as [[|sr srs]|e]; [| |destruct (exn_is_Exception e)]; reflexivity.
Qed.

Ltac case_analyze :=
  rewrite analyze_cons; cbv zeta;
  repeat match goal with
  | |- context [match ?o with Ok _ => _ | Raise _ => _ end] =>
      let E := fresh "E" in destruct o as [[|? ?]|?] eqn:E
  end;
  unfold handled;
  repeat match goal with
  | |- context [if exn_is_Exception ?e then _ else _] =>
      let E := fresh "X" in destruct (exn_is_Exception e) eqn:E
  end; simpl.

(** C2 (as stated, refuted): the guard tests the list, not the joined
    text.  A lone ["#"] line gives a comment list holding one empty string, whose joined
    text is empty, and the models are still invoked on it. *)
Lemma C2_empty_joined_text_still_invokes_models :
  text_for_analysis (extract_code_context (lit "#")) [] = [[]] /\
  join (lit " ") [[]] = [] /\
  calls (snd (review_code joy_pipeline joy_pipeline (lit "#") [] (lit "Dev") world0))
    = [(lit "emotion_classifier", []); (lit "sentiment_analyzer", [])] /\
  ~ (forall ec sa texts w, join (lit " ") texts = [] ->
       analyze_developer_emotion ec sa texts w = (Ok neutral_default, w)).
Proof.
  split; [vm_compute; reflexivity|split; [reflexivity|split; [vm_compute; reflexivity|]]].
  intros H; specialize (H joy_pipeline joy_pipeline [[]] world0 eq_refl).
  vm_compute in H; discriminate.
Qed.

(** C2 (amended): with an empty list of text elements the neutral default
    is returned and no model is invoked; any non-empty list, even one whose
    joined text is empty, is passed to the emotion model as its
    space-joined text. *)
Theorem analyze_skips_models_only_for_empty_list : forall ec sa,
  (forall w, analyze_developer_emotion ec sa [] w = (Ok neutral_default, w)) /\
  (forall texts w, texts <> [] ->
     exists rest, calls (snd (analyze_developer_emotion ec sa texts w))
       = calls w ++ (lit "emotion_classifier", join (lit " ") texts) :: rest).
Proof.
  intros ec sa; split; [reflexivity|].
  intros [|t ts] w Hne; [contradiction|].
  case_analyze; eexists; try rewrite <- app_assoc; reflexivity.
Qed.

Lemma analyze_skips_models_only_for_empty_list_witness :
  analyze_developer_emotion joy_pipeline joy_pipeline [] world0
    = (Ok neutral_default, world0) /\
  exists rest, calls (snd (analyze_developer_emotion joy_pipeline joy_pipeline [[]] world0))
    = (lit "emotion_classifier", []) :: rest.
Proof.
  split.
  - exact (proj1 (analyze_skips_models_only_for_empty_list joy_pipeline joy_pipeline)
             world0).
  - exact (proj2 (analyze_skips_models_only_for_empty_list joy_pipeline joy_pipeline)
             [[]] world0 ltac:(discriminate)).
Defined.

(** C4 (as stated, refuted): [except Exception] does not catch exceptions
    that derive only from [BaseException]; a [KeyboardInterrupt] raised by
    the model propagates out of [analyze_developer_emotion]. *)
Lemma C4_base_exception_propagates :
  fst (analyze_developer_emotion (fun _ => Raise KeyboardInterrupt) joy_pipeline
         [lit "ugh"] world0) = Raise KeyboardInterrupt /\
  ~ (forall ec sa texts w e, texts <> [] -> ec (join (lit " ") texts) = Raise e ->
       fst (analyze_developer_emotion ec sa texts w) = Ok neutral_default).
Proof.
  split; [reflexivity|].
  intros H; specialize (H (fun _ => Raise KeyboardInterrupt) joy_pipeline [lit "ugh"]
                          world0 KeyboardInterrupt ltac:(discriminate) eq_refl).
  discriminate.
Qed.

(** C4 (amended): no exception deriving from [Exception] ever leaves
    [analyze_developer_emotion].  When the [try] body raises [e] (from a
    model, or [IndexError] from taking [[0]] of an empty result): if [e]
    derives from [Exception], the diagnostic [" Analysis error: <e>"] is
    printed and the neutral default is returned; if it derives only from
    [BaseException], [e] propagates to the caller. *)
Theorem analyze_recovers_from_Exception : forall ec sa texts w,
  let j := join (lit " ") texts in
  let r := analyze_developer_emotion ec sa texts w in
  (forall e, fst r = Raise e -> exn_is_Exception e = false) /\
  (forall e, texts <> [] -> first_failure ec sa j = Some e ->
     (exn_is_Exception e = true ->
        fst r = Ok neutral_default /\ stdout (snd r) = stdout w ++ [diagnostic e]) /\
     (exn_is_Exception e = false -> fst r = Raise e)).
Proof.
  intros ec sa texts w j r; unfold r, j; clear r j.
  destruct texts as [|t ts].
  { split; intros; first [discriminate|contradiction]. }
  split.
  - intros e; case_analyze; congruence.
  - intros e _; unfold first_failure; case_analyze;
      intros Hf; try discriminate; injection Hf as <-;
      split; intros HX; first [split; reflexivity | reflexivity | congruence].
Qed.

Lemma analyze_recovers_from_Exception_witness :
  (fst (analyze_developer_emotion (fun _ => Raise (RuntimeError (lit "timeout")))
          joy_pipeline [lit "ugh"] world0) = Ok neutral_default /\
   stdout (snd (analyze_developer_emotion (fun _ => Raise (RuntimeError (lit "timeout")))
          joy_pipeline [lit "ugh"] world0))
     = [diagnostic (RuntimeError (lit "timeout"))]) /\
  (fst (analyze_developer_emotion (fun _ => Ok []) joy_pipeline [lit "ugh"] world0)
     = Ok neutral_default /\
   stdout (snd (analyze_developer_emotion (fun _ => Ok []) joy_pipeline [lit "ugh"] world0))
     = [diagnostic IndexError]) /\
  fst (analyze_developer_emotion (fun _ => Raise KeyboardInterrupt) joy_pipeline
         [lit "ugh"] world0) = Raise KeyboardInterrupt.
Proof.
  split; [|split].
  - exact (proj1 (proj2 (analyze_recovers_from_Exception
             (fun _ => Raise (RuntimeError (lit "timeout"))) joy_pipeline [lit "ugh"] world0)
             (RuntimeError (lit "timeout")) ltac:(discriminate) eq_refl) eq_refl).
  - exact (proj1 (proj2 (analyze_recovers_from_Exception
             (fun _ => Ok []) joy_pipeline [lit "ugh"] world0)
             IndexError ltac:(discriminate) eq_refl) eq_refl).
  - exact (proj2 (proj2 (analyze_recovers_from_Exception
             (fun _ => Raise KeyboardInterrupt) joy_pipeline [lit "ugh"] world0)
             KeyboardInterrupt ltac:(discriminate) eq_refl) eq_refl).
Defined.

(** * Claims about [generate_personalized_feedback] and [review_code] *)

Lemma pyval_eqb_PStr : forall v x, pyval_eqb v (PStr x) = true <-> v = PStr x.
Proof.
  intros [y|q] x; simpl; [|split; discriminate].
  unfold pystr_eqb; destruct (list_eq_dec ascii_dec y x); split; congruence.
Qed.

Lemma generate_insights_and_notes : forall ctx ea msg,
  let emo := dict_get ea (lit "emotion") (PStr (lit "neutral")) in
  emotional_insights (generate_personalized_feedback ctx ea msg) =
    (if existsb (pyval_eqb emo) [PStr (lit "anger"); PStr (lit "frustration")]
     then [msg_annoyed]
     else if pyval_eqb emo (PStr (lit "joy")) then [msg_good_vibe]
     else if pyval_eqb emo (PStr (lit "sadness")) then [msg_hard_time]
     else []) /\
  motivational_notes (generate_personalized_feedback ctx ea msg) =
    (if existsb (pyval_eqb emo) [PStr (lit "anger"); PStr (lit "frustration")]
     then [msg_everyone_was_bad] else []).
Proof.
  intros ctx ea msg emo; unfold generate_personalized_feedback; cbv zeta; fold emo.
  destruct (existsb (pyval_eqb emo) _);
    [|destruct (pyval_eqb emo (PStr (lit "joy")));
      [|destruct (pyval_eqb emo (PStr (lit "sadness")))]];
    destruct (List.length (comments ctx) =? 0), (3 <? List.length (todo_items ctx)),
      (existsb _ bad_words), (variables ctx);
    try destruct (2 <? _); split; reflexivity.
Qed.

Lemma generate_technical_recommendations : forall ctx ea msg,
  technical_recommendations (generate_personalized_feedback ctx ea msg) =
    (if existsb (fun word => contains (lower (join (lit " ") (comments ctx))) word) bad_words
     then [msg_be_kind] else [])
    ++ match variables ctx with
       | [] => []
       | _ :: _ =>
           if 2 <? List.length (filter is_short_var (variables ctx))
           then [msg_short_vars (firstn 3 (filter is_short_var (variables ctx)))]
           else []
       end.
Proof.
  intros ctx ea msg; unfold generate_personalized_feedback; cbv zeta.
  destruct (existsb (pyval_eqb _) _);
    [|destruct (pyval_eqb _ (PStr (lit "joy")));
      [|destruct (pyval_eqb _ (PStr (lit "sadness")))]];
    destruct (List.length (comments ctx) =? 0), (3 <? List.length (todo_items ctx)),
      (existsb _ bad_words), (variables ctx);
    try destruct (2 <? _); reflexivity.
Qed.

Lemma count_occ_le_filter_short : forall l v,
  is_short_var v = true ->
  count_occ (list_eq_dec ascii_dec) l v <= List.length (filter is_short_var l).
Proof.
  induction l as [|a l IH]; intros v Hv; simpl; [lia|].
  specialize (IH v Hv).
  destruct (list_eq_dec ascii_dec a v) as [->|Hne].
  - rewrite Hv; simpl; lia.
  - destruct (is_short_var a); simpl; lia.
Qed.

(** C6: the emotional insight is chosen by exactly one branch over the
    emotion label: anger or frustration gives the sympathetic insight and
    one motivational note, joy the encouraging insight, sadness the
    supportive insight, and any other value no insight at all. *)
Theorem emotional_insight_selection : forall ctx ea msg,
  let fb := generate_personalized_feedback ctx ea msg in
  let emo := dict_get ea (lit "emotion") (PStr (lit "neutral")) in
  ((emo = PStr (lit "anger") \/ emo = PStr (lit "frustration")) ->
     emotional_insights fb = [msg_annoyed] /\
     motivational_notes fb = [msg_everyone_was_bad]) /\
  (emo = PStr (lit "joy") ->
     emotional_insights fb = [msg_good_vibe] /\ motivational_notes fb = []) /\
  (emo = PStr (lit "sadness") ->
     emotional_insights fb = [msg_hard_time] /\ motivational_notes fb = []) /\
  (~ In emo [PStr (lit "anger"); PStr (lit "frustration"); PStr (lit "joy");
             PStr (lit "sadness")] ->
     emotional_insights fb = [] /\ motivational_notes fb = []).
Proof.
  intros ctx ea msg fb emo.
  destruct (generate_insights_and_notes ctx ea msg) as [Hi Hn]; fold emo in Hi, Hn.
  unfold fb; rewrite Hi, Hn; clear fb Hi Hn.
  split; [|split; [|split]].
  - intros [-> | ->]; split; reflexivity.
  - intros ->; split; reflexivity.
  - intros ->; split; reflexivity.
  - intros Hnot.
    assert (F : forall x, In (PStr x) [PStr (lit "anger"); PStr (lit "frustration");
                                       PStr (lit "joy"); PStr (lit "sadness")] ->
                pyval_eqb emo (PStr x) = false).
    { intros x Hx; destruct (pyval_eqb emo (PStr x)) eqn:E; [|reflexivity].
      apply pyval_eqb_PStr in E; rewrite E in Hnot; contradiction. }
    cbn [existsb].
    rewrite !F by (simpl; tauto); split; reflexivity.
Qed.

Lemma emotional_insight_selection_witness :
  (emotional_insights (generate_personalized_feedback empty_context
     [(lit "emotion", PStr (lit "frustration"))] []) = [msg_annoyed] /\
   motivational_notes (generate_personalized_feedback empty_context
     [(lit "emotion", PStr (lit "frustration"))] []) = [msg_everyone_was_bad]) /\
  (emotional_insights (generate_personalized_feedback empty_context
     [(lit "emotion", PStr (lit "fear"))] []) = [] /\
   motivational_notes (generate_personalized_feedback empty_context
     [(lit "emotion", PStr (lit "fear"))] []) = []).
Proof.
  split.
  - exact (proj1 (emotional_insight_selection empty_context
             [(lit "emotion", PStr (lit "frustration"))] []) (or_intror eq_refl)).
  - apply (proj2 (proj2 (proj2 (emotional_insight_selection empty_context
             [(lit "emotion", PStr (lit "fear"))] [])))).
    intros H; repeat (destruct H as [H|H]; [vm_compute in H; discriminate|]); exact H.
Defined.

Lemma text_for_analysis_cases : forall ctx msg,
  text_for_analysis ctx msg
    = if pystr_eqb msg [] then comments ctx else comments ctx ++ [msg].
Proof. intros ctx [|c m]; reflexivity. Qed.

(** C7: [review_code] hands the classifier the comments, followed by the
    commit message only when that message is non-empty, and reports the
    counts of comments, functions and TODO items of the extracted
    context. *)
Theorem review_code_analysis_input_and_metrics : forall ec sa code msg name w,
  let ctx := extract_code_context code in
  let texts := if pystr_eqb msg [] then comments ctx else comments ctx ++ [msg] in
  let w1 := mk_world (stdout w ++ [[nl] ++ lit " Looking at code for " ++ name ++ lit "..."])
              (calls w) (clock w) in
  snd (review_code ec sa code msg name w) = snd (analyze_developer_emotion ec sa texts w1) /\
  (forall r, fst (review_code ec sa code msg name w) = Ok r ->
     fst (analyze_developer_emotion ec sa texts w1) = Ok (emotion_analysis r) /\
     code_metrics r = mk_metrics (List.length (comments ctx))
                        (List.length (functions ctx)) (List.length (todo_items ctx))).
Proof.
  intros ec sa code msg name w ctx texts w1.
  cbv beta iota zeta delta [review_code bind print now_isoformat ret].
  rewrite text_for_analysis_cases; fold ctx texts.
  repeat match goal with
  | |- context [analyze_developer_emotion ec sa texts ?W] =>
      lazymatch W with w1 => fail | _ => change W with w1 end
  end.
  destruct (analyze_developer_emotion ec sa texts w1) as [[ea|e] w2]; simpl.
  - split; [reflexivity|]; intros r Hr; injection Hr as <-; split; reflexivity.
  - split; [reflexivity|]; intros r Hr; discriminate.
Qed.

Lemma review_code_analysis_input_and_metrics_witness :
  exists r, fst (review_code joy_pipeline joy_pipeline demo_code demo_commit
                   (lit "Demo Developer") world0) = Ok r /\
            code_metrics r = mk_metrics 5 2 2.
Proof.
  assert (H : exists r, fst (review_code joy_pipeline joy_pipeline demo_code demo_commit
                               (lit "Demo Developer") world0) = Ok r)
    by (eexists; vm_compute; reflexivity).
  destruct H as [r Hr]; exists r; split; [exact Hr|].
  destruct (proj2 (review_code_analysis_input_and_metrics joy_pipeline joy_pipeline
                     demo_code demo_commit (lit "Demo Developer") world0) r Hr) as [_ Hm].
  rewrite Hm; vm_compute; reflexivity.
Defined.

Lemma split_nl_aux_app : forall a b cur,
  split_nl_aux (a ++ nl :: b) cur = split_nl_aux a cur ++ split_nl b.
Proof.
  induction a as [|c a IH]; intros b cur.
  - cbn [app split_nl_aux]; rewrite Ascii.eqb_refl; reflexivity.
  - cbn [app split_nl_aux]; destruct (Ascii.eqb c nl); rewrite IH; reflexivity.
Qed.

Lemma split_nl_aux_no_nl : forall s cur,
  ~ In nl s -> split_nl_aux s cur = [rev cur ++ s].
Proof.
  induction s as [|c s IH]; intros cur H; simpl; [rewrite app_nil_r; reflexivity|].
  destruct (Ascii.eqb c nl) eqn:E.
  - apply Ascii.eqb_eq in E; subst; exfalso; apply H; left; reflexivity.
  - rewrite IH by (intros Hin; apply H; right; exact Hin).
    simpl; rewrite <- app_assoc; reflexivity.
Qed.

(** [s.split('\n')] undoes ['\n'.join(lines)] when no line holds a newline. *)
Lemma split_nl_join : forall lines,
  lines <> [] -> Forall (fun l => ~ In nl l) lines -> split_nl (join [nl] lines) = lines.
Proof.
  induction lines as [|x [|y r] IH]; intros Hne H; [contradiction| |].
  - inversion H; subst; unfold split_nl; cbn [join].
    rewrite split_nl_aux_no_nl by assumption; reflexivity.
  - inversion H; subst.
    change (join [nl] (x :: y :: r)) with (x ++ nl :: join [nl] (y :: r)).
    unfold split_nl; rewrite split_nl_aux_app, split_nl_aux_no_nl by assumption.
    rewrite IH by (discriminate || assumption); reflexivity.
Qed.

Lemma fold_process_line_variables : forall lines ctx,
  variables (fold_left process_line lines ctx)
    = variables ctx ++ flat_map (fun l => opt_list (match_var (strip l))) lines.
Proof.
  induction lines as [|l lines IH]; intros ctx; simpl; [rewrite app_nil_r; reflexivity|].
  rewrite IH, process_line_variables, app_assoc; reflexivity.
Qed.

Lemma assigns_to_match_var : forall v l,
  assigns_to v l -> v <> [] -> forallb is_word v = true -> match_var (strip l) = Some v.
Proof.
  intros v l (ind & ws & rest & Hind & Hws & Hl) Hv Hw.
  pose proof (process_line_assignment empty_context l ind v ws rest Hind Hv Hw Hws Hl) as H.
  rewrite process_line_variables in H; simpl in H.
  destruct (match_var (strip l)); simpl in H; congruence.
Qed.

Lemma assignments_counted : forall v asg lines,
  subseq asg lines -> Forall (assigns_to v) asg -> v <> [] -> forallb is_word v = true ->
  List.length asg
    <= count_occ (list_eq_dec ascii_dec)
         (flat_map (fun l => opt_list (match_var (strip l))) lines) v.
Proof.
  intros v asg lines Hs; induction Hs as [|x l1 l2 Hs IH|x l1 l2 Hs IH];
    intros Ha Hv Hw; cbn [flat_map List.length]; [lia| |].
  - inversion Ha as [|? ? Hx Ha']; subst.
    rewrite (assigns_to_match_var v x Hx Hv Hw); cbn [opt_list app count_occ].
    destruct (list_eq_dec ascii_dec v v) as [_|n]; [|contradiction].
    specialize (IH Ha' Hv Hw); lia.
  - rewrite count_occ_app; specialize (IH Ha Hv Hw).
    eapply Nat.le_trans; [exact IH|apply Nat.le_add_l].
Qed.

(** C10: [variables] keeps one entry per assignment line, duplicates
    included: when a short name (at most two characters) is assigned on
    three or more lines of the code, it occurs at least three times in
    [variables], the short-variable count exceeds two and the
    recommendation fires, listing the first three short entries, which may
    repeat that name. *)
Theorem repeated_short_name_triggers_recommendation : forall lines asg v ea msg,
  Forall (fun l => ~ In nl l) lines ->
  subseq asg lines -> 3 <= List.length asg -> Forall (assigns_to v) asg ->
  is_short_var v = true -> v <> [] -> forallb is_word v = true ->
  let ctx := extract_code_context (join [nl] lines) in
  let short_vars := filter is_short_var (variables ctx) in
  3 <= count_occ (list_eq_dec ascii_dec) (variables ctx) v /\
  3 <= List.length short_vars /\
  In (msg_short_vars (firstn 3 short_vars))
     (technical_recommendations (generate_personalized_feedback ctx ea msg)).
Proof.
  intros lines asg v ea msg Hnl Hs H3 Ha Hv Hne Hw ctx short_vars.
  assert (Hlines : lines <> []).
  { intros ->; inversion Hs; subst; simpl in H3; lia. }
  assert (Hc : 3 <= count_occ (list_eq_dec ascii_dec) (variables ctx) v).
  { unfold ctx, extract_code_context; rewrite split_nl_join by assumption.
    rewrite fold_process_line_variables; simpl.
    exact (Nat.le_trans _ _ _ H3 (assignments_counted v asg lines Hs Ha Hne Hw)). }
  pose proof (count_occ_le_filter_short (variables ctx) v Hv) as Hle.
  assert (Hlen : 2 < List.length short_vars) by (unfold short_vars; lia).
  split; [exact Hc|split; [lia|]].
  rewrite generate_technical_recommendations; fold short_vars.
  rewrite (proj2 (Nat.ltb_lt _ _) Hlen).
  destruct (variables ctx) as [|x xs]; [simpl in Hc; lia|].
  apply in_or_app; right; left; reflexivity.
Qed.

Lemma repeated_short_name_triggers_recommendation_witness :
  3 <= count_occ (list_eq_dec ascii_dec)
         (variables (extract_code_context (join [nl] [lit "a = 1"; lit "a = 2"; lit "a = 3"])))
         (lit "a") /\
  3 <= List.length (filter is_short_var
         (variables (extract_code_context (join [nl] [lit "a = 1"; lit "a = 2"; lit "a = 3"])))) /\
  In (msg_short_vars (firstn 3 (filter is_short_var
         (variables (extract_code_context (join [nl] [lit "a = 1"; lit "a = 2"; lit "a = 3"]))))))
     (technical_recommendations
        (generate_personalized_feedback
           (extract_code_context (join [nl] [lit "a = 1"; lit "a = 2"; lit "a = 3"]))
           neutral_default [])).
Proof.
  apply (repeated_short_name_triggers_recommendation [lit "a = 1"; lit "a = 2"; lit "a = 3"]
           [lit "a = 1"; lit "a = 2"; lit "a = 3"] (lit "a") neutral_default []).
  - repeat (apply Forall_cons; [intros H; vm_compute in H; repeat destruct H as [H|H]; first [discriminate|contradiction]|]);
      apply Forall_nil.
  - apply subseq_refl.
  - simpl; lia.
  - repeat (apply Forall_cons;
      [exists [], (lit " "); eexists; split; [reflexivity|split; reflexivity]|]);
      apply Forall_nil.
  - reflexivity.
  - discriminate.
  - reflexivity.
Defined.

(** * A run on concrete input *)

Example extract_demo_code :
  extract_code_context demo_code
  = mk_context
      [lit "This is a terrible hack but I can't figure out the right way";
       lit "TODO: fix this mess later"; lit "I hate this function, it's so confusing";
       lit "Another TODO: refactor everything"; lit "This probably won't work but whatever"]
      [lit "calculate_stuff"; lit "main"] [lit "result"; lit "a"; lit "b"]
      [lit "TODO: fix this mess later"; lit "Another TODO: refactor everything"].
Proof. vm_compute; reflexivity. Qed.

(** * The rest of [extract_code_context] *)

Lemma split_nl_aux_length : forall s cur,
  List.length (split_nl_aux s cur) = S (count_occ ascii_dec s nl).
Proof.
  induction s as [|c s IH]; intros cur; [reflexivity|].
  cbn [split_nl_aux count_occ].
  destruct (Ascii.eqb c nl) eqn:E.
  - apply Ascii.eqb_eq in E; subst c.
    destruct (ascii_dec nl nl) as [_|n]; [|contradiction]; simpl; rewrite IH; reflexivity.
  - destruct (ascii_dec c nl) as [e|_]; [subst; rewrite Ascii.eqb_refl in E; discriminate|].
    apply IH.
Qed.

Lemma ctx_eta : forall ctx,
  ctx = mk_context (comments ctx) (functions ctx) (variables ctx) (todo_items ctx).
Proof. intros []; reflexivity. Qed.

Lemma process_line_ctx_app : forall ctx raw,
  process_line ctx raw = ctx_app ctx (process_line empty_context raw).
Proof.
  intros ctx raw; rewrite (ctx_eta (process_line ctx raw)); unfold ctx_app.
  rewrite !process_line_comments, !process_line_functions, !process_line_variables,
    !process_line_todo_items; reflexivity.
Qed.

Lemma ctx_app_assoc : forall a b c, ctx_app a (ctx_app b c) = ctx_app (ctx_app a b) c.
Proof. intros; unfold ctx_app; simpl; rewrite !app_assoc; reflexivity. Qed.

Lemma ctx_app_empty_l : forall c, ctx_app empty_context c = c.
Proof. intros []; reflexivity. Qed.

Lemma fold_process_line_ctx_app : forall lines ctx,
  fold_left process_line lines ctx
    = ctx_app ctx (fold_left process_line lines empty_context).
Proof.
  induction lines as [|l lines IH]; intros ctx; simpl.
  - destruct ctx; unfold ctx_app; simpl; rewrite !app_nil_r; reflexivity.
  - rewrite IH, (IH (process_line empty_context l)), ctx_app_assoc.
    rewrite <- process_line_ctx_app; reflexivity.
Qed.

(** X1: extraction works line by line: the context of two texts joined by
    a newline is the field-wise concatenation of their contexts. *)
Theorem extract_code_context_app : forall a b,
  extract_code_context (a ++ nl :: b)
    = ctx_app (extract_code_context a) (extract_code_context b).
Proof.
  intros a b; unfold extract_code_context, split_nl.
  rewrite split_nl_aux_app, fold_left_app, fold_process_line_ctx_app; reflexivity.
Qed.

(** The contribution of one line to each field of the context. *)
Lemma fold_process_line_flat_map : forall lines,
  fold_left process_line lines empty_context
  = mk_context (flat_map (fun l => comments (process_line empty_context l)) lines)
      (flat_map (fun l => functions (process_line empty_context l)) lines)
      (flat_map (fun l => variables (process_line empty_context l)) lines)
      (flat_map (fun l => todo_items (process_line empty_context l)) lines).
Proof.
  induction lines as [|l lines IH]; [reflexivity|].
  cbn [fold_left flat_map]; rewrite fold_process_line_ctx_app, IH; reflexivity.
Qed.

Lemma process_line_empty_lengths : forall l,
  let c := process_line empty_context l in
  List.length (comments c) <= 1 /\ List.length (functions c) <= 1 /\
  List.length (variables c) <= 1 /\ List.length (todo_items c) <= 1.
Proof.
  intros l c; unfold c.
  rewrite process_line_comments, process_line_functions, process_line_variables,
    process_line_todo_items.
  destruct (is_comment_line _), (is_todo _), (re_search_def _), (match_var _);
    simpl; lia.
Qed.

(** X2: [extract_code_context] records at most one comment, one function
    name, one variable name and one TODO item per line: each field of the
    context is the concatenation, over the lines of the text (one more than
    its newline characters), of what the loop body adds for that line on its
    own, and the loop body adds at most one entry to each field. *)
Theorem extract_at_most_one_per_line : forall code_text,
  let ctx := extract_code_context code_text in
  let lines := split_nl code_text in
  List.length lines = S (count_occ ascii_dec code_text nl) /\
 comments ctx = flat_map (fun l => comments (process_line empty_context l)) lines /\
  functions ctx = flat_map (fun l => functions (process_line empty_context l)) lines /\
  variables ctx = flat_map (fun l => variables (process_line empty_context l)) lines /\
  todo_items ctx = flat_map (fun l => todo_items (process_line empty_context l)) lines /\
  (forall l, let c := process_line empty_context l in
     List.length (comments c) <= 1 /\ List.length (functions c) <= 1 /\
    List.length (variables c) <= 1 /\ List.length (todo_items c) <= 1).
Proof.
  intros code_text ctx lines; unfold ctx, extract_code_context; fold lines.
  rewrite fold_process_line_flat_map.
  split; [apply split_nl_aux_length|].
  repeat split; try reflexivity; apply process_line_empty_lengths.
Qed.

Lemma forallb_take_while : forall f s, forallb f (take_while f s) = true.
Proof.
  intros f; induction s as [|c s IH]; simpl; [reflexivity|].
  destruct (f c) eqn:E; simpl; [rewrite E; exact IH|reflexivity].
Qed.

Lemma match_def_at_ident : forall s f, match_def_at s = Some f -> is_ident f.
Proof.
  intros s f H; unfold match_def_at in H.
  destruct (startswith s (lit "def")); [|discriminate].
  destruct (take_while isspace (skipn 3 s)); [discriminate|].
  destruct (take_while is_word (drop_while isspace (skipn 3 s))) eqn:E; [discriminate|].
  injection H as <-; split; [discriminate|].
  rewrite <- E; apply forallb_take_while.
Qed.

Lemma re_search_def_ident : forall s f, re_search_def s = Some f -> is_ident f.
Proof.
  induction s as [|c s IH]; intros f H; [discriminate|].
  simpl in H; destruct (match_def_at (c :: s)) eqn:E.
  - injection H as <-; eapply match_def_at_ident; exact E.
  - apply IH, H.
Qed.

Lemma match_var_ident : forall s v, match_var s = Some v -> is_ident v.
Proof.
  intros s v H; unfold match_var in H.
  destruct (take_while is_word s) eqn:E; [discriminate|].
  destruct (drop_while isspace (drop_while is_word s)); [discriminate|].
  destruct (Ascii.eqb _ _); [|discriminate].
  injection H as <-; split; [discriminate|].
  rewrite <- E; apply forallb_take_while.
Qed.

Lemma Forall_opt_list {A} (P : A -> Prop) : forall o,
  (forall x, o = Some x -> P x) -> Forall P (opt_list o).
Proof. intros [x|] H; simpl; [constructor; [apply H; reflexivity|constructor]|constructor]. Qed.

Lemma fold_process_line_idents : forall lines ctx,
  Forall is_ident (functions ctx) -> Forall is_ident (variables ctx) ->
  Forall is_ident (functions (fold_left process_line lines ctx)) /\
  Forall is_ident (variables (fold_left process_line lines ctx)).
Proof.
  induction lines as [|l lines IH]; intros ctx Hf Hv; simpl; [split; assumption|].
  apply IH.
  - rewrite process_line_functions; apply Forall_app; split; [assumption|].
    apply Forall_opt_list, re_search_def_ident.
  - rewrite process_line_variables; apply Forall_app; split; [assumption|].
    apply Forall_opt_list, match_var_ident.
Qed.

(** X3: every recorded function name and variable name is a non-empty
    identifier: a run of [\w] characters. *)
Theorem extracted_names_are_identifiers : forall code_text,
  Forall is_ident (functions (extract_code_context code_text)) /\
  Forall is_ident (variables (extract_code_context code_text)).
Proof. intros; apply fold_process_line_idents; constructor. Qed.

Definition head_nonspace (s : pystr) : Prop :=
  match s with [] => True | c :: _ => isspace c = false end.

Lemma lstrip_head_nonspace : forall s, head_nonspace (lstrip s).
Proof.
  induction s as [|c s IH]; simpl; [exact I|].
  destruct (isspace c) eqn:E; [exact IH|exact E].
Qed.

Lemma head_nonspace_lstrip : forall s, head_nonspace s -> lstrip s = s.
Proof. intros [|c s] H; simpl in *; [reflexivity|rewrite H; reflexivity]. Qed.

Lemma lstrip_drop_while : forall s, lstrip s = drop_while isspace s.
Proof. induction s as [|c s IH]; simpl; [reflexivity|rewrite IH; reflexivity]. Qed.

Lemma drop_while_suffix : forall f s, exists p, s = p ++ drop_while f s.
Proof.
  intros f; induction s as [|c s IH]; simpl; [exists []; reflexivity|].
  destruct (f c); [destruct IH as [p Hp]; exists (c :: p); simpl; f_equal; exact Hp|].
  exists []; reflexivity.
Qed.

Lemma head_nonspace_app : forall a b, head_nonspace (a ++ b) -> a <> [] -> head_nonspace a.
Proof. intros [|c a] b H Hne; [contradiction|exact H]. Qed.

(** A suffix of a stripped line that starts with a non-space is stripped. *)
Lemma strip_suffix_of_stripped : forall raw p c,
  strip raw = p ++ c -> head_nonspace c -> strip c = c.
Proof.
  intros raw p c Hl Hc.
  assert (Ht : head_nonspace (rev (strip raw))).
  { unfold strip, rstrip; rewrite rev_involutive; apply lstrip_head_nonspace. }
  unfold strip, rstrip; rewrite (head_nonspace_lstrip c Hc).
  destruct (rev c) as [|d rc] eqn:Er.
  - assert (c = []) by (rewrite <- (rev_involutive c), Er; reflexivity); subst; reflexivity.
  - rewrite <- Er, head_nonspace_lstrip, rev_involutive; [reflexivity|].
    rewrite Hl, rev_app_distr in Ht; apply head_nonspace_app in Ht;
      [exact Ht|rewrite Er; discriminate].
Qed.

Lemma comment_is_stripped : forall raw,
  is_comment_line (strip raw) = true ->
  strip (strip_comment_marker (strip raw)) = strip_comment_marker (strip raw).
Proof.
  intros raw H.
  destruct (is_comment_line_head _ H) as (c & r & Hcr & Hc).
  unfold strip_comment_marker; rewrite Hcr, Hc; rewrite <- Hcr.
  destruct (drop_while_suffix is_hash_slash (strip raw)) as [p1 H1].
  destruct (drop_while_suffix isspace (drop_while is_hash_slash (strip raw))) as [p2 H2].
  apply (strip_suffix_of_stripped raw (p1 ++ p2)).
  - rewrite <- app_assoc, <- H2; exact H1.
  - rewrite <- lstrip_drop_while; apply lstrip_head_nonspace.
Qed.

Lemma fold_process_line_stripped : forall lines ctx,
  Forall (fun c => strip c = c) (comments ctx) ->
  Forall (fun c => strip c = c) (comments (fold_left process_line lines ctx)).
Proof.
  induction lines as [|l lines IH]; intros ctx H; simpl; [assumption|].
  apply IH; rewrite process_line_comments; apply Forall_app; split; [assumption|].
  destruct (is_comment_line (strip l)) eqn:E; [|constructor].
  constructor; [apply comment_is_stripped, E|constructor].
Qed.

(** X4: every recorded comment body has neither leading nor trailing
    whitespace: stripping it again changes nothing. *)
Theorem extracted_comments_are_stripped : forall code_text,
  Forall (fun c => strip c = c) (comments (extract_code_context code_text)).
Proof. intros; apply fold_process_line_stripped; constructor. Qed.

(** * The rest of [analyze_developer_emotion] and [review_code] *)

Lemma lower_char_idem : forall c, lower_char (lower_char c) = lower_char c.
Proof. intros c; destruct c as [[] [] [] [] [] [] [] []]; vm_compute; reflexivity. Qed.

Lemma lower_idem : forall s, lower (lower s) = lower s.
Proof.
  intros s; unfold lower; rewrite map_map; apply map_ext; intros; apply lower_char_idem.
Qed.

Lemma analyze_ok_dict : forall ec sa texts w d,
  fst (analyze_developer_emotion ec sa texts w) = Ok d ->
  d = neutral_default \/ exists er sr, d = analysis_dict er sr.
Proof.
  intros ec sa [|t ts] w d.
  - simpl; intros H; injection H as <-; left; reflexivity.
  - case_analyze; intros H; first [discriminate | injection H as <-; eauto].
Qed.

Lemma analyze_result_strings : forall ec sa texts w d dflt,
  fst (analyze_developer_emotion ec sa texts w) = Ok d ->
  exists e s, dict_get d (lit "emotion") dflt = PStr e /\ lower e = e /\
              dict_get d (lit "sentiment") dflt = PStr s /\ lower s = s.
Proof.
  intros ec sa texts w d dflt H.
  destruct (analyze_ok_dict ec sa texts w d H) as [->|(er & sr & ->)].
  - exists (lit "neutral"), (lit "neutral"); repeat split.
  - exists (lower (label er)), (lower (label sr)); repeat split; apply lower_idem.
Qed.

(** X6: the observable effects of [analyze_developer_emotion]: with no text
    nothing happens; otherwise the emotion model is invoked once on the
    space-joined text, the sentiment model once more only when the emotion
    model returned a non-empty list, and at most the one diagnostic line of
    a caught [Exception] is printed. *)
Theorem analyze_effects : forall ec sa texts w,
  let j := join (lit " ") texts in
  let w' := snd (analyze_developer_emotion ec sa texts w) in
  (texts = [] -> w' = w) /\
  (texts <> [] ->
     calls w' = calls w ++ (lit "emotion_classifier", j)
                  :: match ec j with
                     | Ok (_ :: _) => [(lit "sentiment_analyzer", j)]
                     | _ => []
                     end /\
     (stdout w' = stdout w \/
      exists e, exn_is_Exception e = true /\ stdout w' = stdout w ++ [diagnostic e])).
Proof.
  intros ec sa [|t ts] w j w'; split; intros Hne; try reflexivity; try contradiction;
    [discriminate|].
  unfold w', j; clear w' j.
  case_analyze; rewrite ?E;
    (split; [rewrite <- ?app_assoc; reflexivity|]);
    first [left; reflexivity | right; eexists; split; [eassumption|reflexivity]].
Qed.

Lemma analyze_effects_witness :
  calls (snd (analyze_developer_emotion (fun _ => Ok []) joy_pipeline [lit "ugh"] world0))
    = [(lit "emotion_classifier", lit "ugh")] /\
  calls (snd (analyze_developer_emotion joy_pipeline joy_pipeline [lit "ugh"] world0))
    = [(lit "emotion_classifier", lit "ugh"); (lit "sentiment_analyzer", lit "ugh")].
Proof.
  split.
  - exact (proj1 (proj2 (analyze_effects (fun _ => Ok []) joy_pipeline [lit "ugh"] world0)
                    ltac:(discriminate))).
  - exact (proj1 (proj2 (analyze_effects joy_pipeline joy_pipeline [lit "ugh"] world0)
                    ltac:(discriminate))).
Defined.

(** X7: every dictionary [analyze_developer_emotion] returns maps
    ["emotion"] and ["sentiment"] to strings that are already lower case. *)
Theorem analyze_labels_lowercase : forall ec sa texts w d dflt,
  fst (analyze_developer_emotion ec sa texts w) = Ok d ->
  exists e s, dict_get d (lit "emotion") dflt = PStr e /\ lower e = e /\
              dict_get d (lit "sentiment") dflt = PStr s /\ lower s = s.
Proof. intros ec sa texts w d dflt H; exact (analyze_result_strings ec sa texts w d dflt H). Qed.

Lemma analyze_labels_lowercase_witness :
  exists e s, dict_get (analysis_dict (mk_prediction (lit "JOY") (9 # 10))
                                      (mk_prediction (lit "JOY") (9 # 10)))
                (lit "emotion") (PStr (lit "N/A")) = PStr e /\ lower e = e /\
              dict_get (analysis_dict (mk_prediction (lit "JOY") (9 # 10))
                                      (mk_prediction (lit "JOY") (9 # 10)))
                (lit "sentiment") (PStr (lit "N/A")) = PStr s /\ lower s = s.
Proof.
  exact (analyze_labels_lowercase joy_pipeline joy_pipeline [lit "ugh"] world0
           (analysis_dict (mk_prediction (lit "JOY") (9 # 10)) (mk_prediction (lit "JOY") (9 # 10)))
           (PStr (lit "N/A")) eq_refl).
Defined.

Lemma review_code_eq : forall ec sa code msg name w,
  review_code ec sa code msg name w =
  let ctx := extract_code_context code in
  match analyze_developer_emotion ec sa (text_for_analysis ctx msg)
          (mk_world (stdout w ++ [looking_at name]) (calls w) (clock w)) with
  | (Ok ea, w2) =>
      (Ok (mk_report name (clock w2) ea
             (mk_metrics (List.length (comments ctx)) (List.length (functions ctx))
                (List.length (todo_items ctx)))
             (generate_personalized_feedback ctx ea msg)), w2)
  | (Raise e, w2) => (Raise e, w2)
  end.
Proof.
  intros; cbv beta iota zeta delta [review_code bind print now_isoformat ret].
  destruct (analyze_developer_emotion _ _ _ _) as [[]]; reflexivity.
Qed.

(** X5: when the code has no comment line and the commit message is
    empty, [review_code] invokes no model, prints only its banner and
    reports the neutral default analysis. *)
Theorem review_code_without_text : forall ec sa code name w,
  comments (extract_code_context code) = [] ->
  calls (snd (review_code ec sa code [] name w)) = calls w /\
  stdout (snd (review_code ec sa code [] name w)) = stdout w ++ [looking_at name] /\
  exists r, fst (review_code ec sa code [] name w) = Ok r /\
            emotion_analysis r = neutral_default.
Proof.
  intros ec sa code name w H; rewrite review_code_eq; cbv zeta.
  cbn [text_for_analysis]; rewrite H; cbn [analyze_developer_emotion ret].
  split; [reflexivity|split; [reflexivity|]].
  eexists; split; reflexivity.
Qed.

Lemma review_code_without_text_witness :
  calls (snd (review_code joy_pipeline joy_pipeline (lit "x = 1") [] (lit "Dev") world0)) = [] /\
  stdout (snd (review_code joy_pipeline joy_pipeline (lit "x = 1") [] (lit "Dev") world0))
    = [looking_at (lit "Dev")] /\
  exists r, fst (review_code joy_pipeline joy_pipeline (lit "x = 1") [] (lit "Dev") world0) = Ok r /\
            emotion_analysis r = neutral_default.
Proof.
  exact (review_code_without_text joy_pipeline joy_pipeline (lit "x = 1") (lit "Dev") world0
           ltac:(vm_compute; reflexivity)).
Defined.

(** * The rest of [generate_personalized_feedback] *)

Lemma generate_code_suggestions : forall ctx ea msg,
  code_suggestions (generate_personalized_feedback ctx ea msg) =
    match comments ctx with [] => [msg_more_comments] | _ :: _ => [] end
    ++ (if 3 <? List.length (todo_items ctx)
        then [msg_todos (List.length (todo_items ctx))] else []).
Proof.
  intros ctx ea msg; unfold generate_personalized_feedback; cbv zeta.
  destruct (comments ctx);
  (destruct (existsb (pyval_eqb _) _);
    [|destruct (pyval_eqb _ (PStr (lit "joy")));
      [|destruct (pyval_eqb _ (PStr (lit "sadness")))]]);
    destruct (3 <? List.length (todo_items ctx)), (existsb _ bad_words), (variables ctx);
    try destruct (2 <? _); reflexivity.
Qed.

Lemma msg_short_vars_not_be_kind : forall names, msg_short_vars names <> msg_be_kind.
Proof.
  intros names H; apply (f_equal (fun l => nth 1 l "a"%char)) in H.
  vm_compute in H; discriminate.
Qed.

(** X9: the recommendation about harsh words is given once when one of
    "hack", "dirty", "terrible" or "broken" occurs in the lower-cased,
    space-joined comments, however often, and never otherwise. *)
Theorem be_kind_given_at_most_once : forall ctx ea msg,
  count_occ (list_eq_dec ascii_dec)
    (technical_recommendations (generate_personalized_feedback ctx ea msg)) msg_be_kind
  = if existsb (fun word => contains (lower (join (lit " ") (comments ctx))) word) bad_words
    then 1 else 0.
Proof.
  intros ctx ea msg; rewrite generate_technical_recommendations.
  destruct (existsb _ bad_words); destruct (variables ctx) as [|p l];
    try destruct (2 <? _); cbn [app count_occ];
    repeat match goal with
    | |- context [list_eq_dec ascii_dec ?a ?b] => destruct (list_eq_dec ascii_dec a b)
    end;
    try reflexivity; try contradiction;
    exfalso; eapply msg_short_vars_not_be_kind; eassumption.
Qed.

Lemma Forall_firstn {A} (P : A -> Prop) : forall n l, Forall P l -> Forall P (firstn n l).
Proof.
  induction n as [|n IH]; intros [|x l] H; simpl; try constructor.
  - inversion H; assumption.
  - apply IH; inversion H; assumption.
Qed.

(** X10: the short-name recommendation is given exactly when more than two
    recorded variables have at most two characters; it then lists the first
    three of them, each a recorded variable of at most two characters. *)
Theorem short_name_recommendation_rule : forall ctx ea msg,
  let short_vars := filter is_short_var (variables ctx) in
  let kind := if existsb (fun word => contains (lower (join (lit " ") (comments ctx))) word)
                   bad_words then [msg_be_kind] else [] in
  (List.length short_vars <= 2 ->
     technical_recommendations (generate_personalized_feedback ctx ea msg) = kind) /\
  (3 <= List.length short_vars ->
     technical_recommendations (generate_personalized_feedback ctx ea msg)
       = kind ++ [msg_short_vars (firstn 3 short_vars)] /\
     Forall (fun v => List.length v <= 2 /\ In v (variables ctx)) (firstn 3 short_vars)).
Proof.
  intros ctx ea msg short_vars kind.
  rewrite generate_technical_recommendations; fold short_vars kind.
  split; intros H.
  - destruct (variables ctx); [apply app_nil_r|].
    rewrite (proj2 (Nat.ltb_ge _ _) H); apply app_nil_r.
  - assert (Hne : variables ctx <> []) by (intros E; unfold short_vars in H; rewrite E in H;
                                           simpl in H; lia).
    split.
    + destruct (variables ctx); [contradiction|].
      rewrite (proj2 (Nat.ltb_lt 2 _) H); reflexivity.
    + apply Forall_firstn, Forall_forall; intros v Hv.
      unfold short_vars in Hv; apply filter_In in Hv as [Hin Hs].
      unfold is_short_var in Hs; apply Nat.leb_le in Hs; split; assumption.
Qed.

Lemma short_name_recommendation_rule_witness :
  technical_recommendations
    (generate_personalized_feedback (mk_context [] [] [lit "ab"; lit "count"] []) neutral_default [])
    = [] /\
  technical_recommendations
    (generate_personalized_feedback (mk_context [] [] [lit "a"; lit "b"; lit "c"; lit "d"] [])
       neutral_default [])
    = [msg_short_vars [lit "a"; lit "b"; lit "c"]].
Proof.
  split.
  - exact (proj1 (short_name_recommendation_rule (mk_context [] [] [lit "ab"; lit "count"] [])
                    neutral_default []) ltac:(vm_compute; lia)).
  - exact (proj1 (proj2 (short_name_recommendation_rule
             (mk_context [] [] [lit "a"; lit "b"; lit "c"; lit "d"] []) neutral_default [])
             ltac:(vm_compute; lia))).
Defined.

(** X11: the feedback holds at most one emotional insight, no more
    motivational notes than insights, and at most two code suggestions
    and two technical recommendations. *)
Theorem feedback_sizes : forall ctx ea msg,
  let fb := generate_personalized_feedback ctx ea msg in
  List.length (emotional_insights fb) <= 1 /\
  List.length (motivational_notes fb) <= List.length (emotional_insights fb) /\
  List.length (code_suggestions fb) <= 2 /\
  List.length (technical_recommendations fb) <= 2.
Proof.
  intros ctx ea msg fb.
  destruct (generate_insights_and_notes ctx ea msg) as [Hi Hn].
  pose proof (generate_code_suggestions ctx ea msg) as Hs.
  pose proof (generate_technical_recommendations ctx ea msg) as Ht.
  unfold fb; rewrite Hi, Hn, Hs, Ht; clear fb Hi Hn Hs Ht.
  rewrite !length_app.
  destruct (existsb _ [PStr (lit "anger"); PStr (lit "frustration")]);
    [|destruct (pyval_eqb _ (PStr (lit "joy")));
      [|destruct (pyval_eqb _ (PStr (lit "sadness")))]];
    destruct (comments ctx), (3 <? _), (existsb _ bad_words), (variables ctx);
    try destruct (2 <? _); simpl; lia.
Qed.

(** * [print_report] *)

Lemma print_entries_spec : forall items w,
  print_entries items w
    = (Ok tt, mk_world (stdout w ++ map (fun x => lit "   - " ++ x) items) (calls w) (clock w)).
Proof.
  induction items as [|x items IH]; intros w.
  - destruct w; simpl; rewrite app_nil_r; reflexivity.
  - cbn [print_entries]; unfold bind at 1, print at 1; rewrite IH; simpl.
    rewrite <- app_assoc; reflexivity.
Qed.

Lemma print_section_spec : forall header items w,
  print_section header items w
    = (Ok tt, mk_world (stdout w ++ section_lines header items) (calls w) (clock w)).
Proof.
  intros header [|x items] w.
  - destruct w; simpl; rewrite app_nil_r; reflexivity.
  - unfold print_section, bind at 1, print at 1; rewrite print_entries_spec; simpl.
    rewrite <- app_assoc; reflexivity.
Qed.

Lemma print_report_spec : forall t r w e s,
  dict_get (emotion_analysis r) (lit "emotion") (PStr (lit "N/A")) = PStr e ->
  dict_get (emotion_analysis r) (lit "sentiment") (PStr (lit "N/A")) = PStr s ->
  print_report t r w
    = (Ok tt, mk_world (stdout w ++ report_lines r (t e) (t s)) (calls w) (clock w)).
Proof.
  intros t r w e s He Hs.
  cbv beta iota zeta delta [print_report bind print stdout calls clock].
  rewrite He, Hs; cbv beta iota delta [py_title ret stdout calls clock].
  repeat (rewrite print_section_spec; cbv beta iota delta [stdout calls clock]).
  unfold report_lines; rewrite <- !app_assoc; reflexivity.
Qed.

(** X12: when the analysis maps ["emotion"] and ["sentiment"] to strings
    (or lacks them), [print_report] returns normally and prints exactly the
    header, the title-cased emotion and sentiment, the three metrics, then
    each non-empty feedback list under its heading, in the order insights,
    suggestions, technical recommendations, motivational notes, one
    ["   - "] line per entry, and the closing rule; empty lists print
    nothing. *)
Theorem print_report_output : forall t r w e s,
  dict_get (emotion_analysis r) (lit "emotion") (PStr (lit "N/A")) = PStr e ->
  dict_get (emotion_analysis r) (lit "sentiment") (PStr (lit "N/A")) = PStr s ->
  print_report t r w
    = (Ok tt, mk_world (stdout w ++ report_lines r (t e) (t s)) (calls w) (clock w)).
Proof. intros t r w e s He Hs; exact (print_report_spec t r w e s He Hs). Qed.

Lemma print_report_output_witness :
  print_report (fun s => s)
    (mk_report (lit "Dev") (lit "now") neutral_default (mk_metrics 0 0 0)
       (mk_feedback [] [msg_more_comments] [] [])) world0
  = (Ok tt, mk_world (report_lines
       (mk_report (lit "Dev") (lit "now") neutral_default (mk_metrics 0 0 0)
          (mk_feedback [] [msg_more_comments] [] [])) (lit "neutral") (lit "neutral"))
       [] (clock world0)).
Proof.
  exact (print_report_output (fun s => s)
           (mk_report (lit "Dev") (lit "now") neutral_default (mk_metrics 0 0 0)
              (mk_feedback [] [msg_more_comments] [] [])) world0 (lit "neutral") (lit "neutral")
           eq_refl eq_refl).
Defined.

(** X13: when the analysis maps ["emotion"] to a number, [print_report]
    prints the six lines up to the emotional-state heading and then raises
    [AttributeError] at [.title()]. *)
Theorem print_report_numeric_emotion : forall t r w q,
  dict_get (emotion_analysis r) (lit "emotion") (PStr (lit "N/A")) = PFloat q ->
  print_report t r w
    = (Raise AttributeError_title,
       mk_world (stdout w ++ [[nl] ++ rule60; lit " EMOTION-DRIVEN CODE REVIEW REPORT";
                              lit " Developer: " ++ developer r; lit " Time: " ++ timestamp r;
                              rule60; [nl] ++ lit " EMOTIONAL STATE ANALYSIS:"])
         (calls w) (clock w)).
Proof.
  intros t r w q He.
  cbv beta iota zeta delta [print_report bind print stdout calls clock].
  rewrite He; cbv beta iota delta [py_title raise stdout calls clock].
  rewrite <- !app_assoc; reflexivity.
Qed.

Lemma print_report_numeric_emotion_witness :
  fst (print_report (fun s => s) numeric_emotion_report world0) = Raise AttributeError_title.
Proof.
  rewrite (print_report_numeric_emotion (fun s => s) numeric_emotion_report world0 (1 # 2)
             eq_refl).
  reflexivity.
Defined.

Lemma analyze_raise_not_Exception : forall ec sa texts w e,
  fst (analyze_developer_emotion ec sa texts w) = Raise e -> exn_is_Exception e = false.
Proof.
  intros ec sa [|t ts] w e; [discriminate|].
  case_analyze; intros H; first [discriminate | injection H as <-; assumption].
Qed.

Lemma review_then_print_raise : forall ec sa t code msg name w e,
  fst (bind (review_code ec sa code msg name) (print_report t) w) = Raise e ->
  exn_is_Exception e = false.
Proof.
  intros ec sa t code msg name w e.
  unfold bind at 1; rewrite review_code_eq; cbv zeta.
  set (texts := text_for_analysis (extract_code_context code) msg).
  set (w1 := mk_world (stdout w ++ [looking_at name]) (calls w) (clock w)).
  destruct (analyze_developer_emotion ec sa texts w1) as [[ea|e'] w2] eqn:Ea.
  - destruct (analyze_result_strings ec sa texts w1 ea (PStr (lit "N/A")))
      as (em & se & He & _ & Hs & _); [rewrite Ea; reflexivity|].
    erewrite (print_report_spec t _ w2 em se); [discriminate|exact He|exact Hs].
  - intros H; injection H as <-.
    apply (analyze_raise_not_Exception ec sa texts w1 e'); rewrite Ea; reflexivity.
Qed.

(** X14: reviewing code and printing its report never raises an exception
    deriving from [Exception]: a report built by [review_code] always holds
    string labels, so its printing cannot fail. *)
Theorem review_and_print_no_Exception : forall ec sa t code msg name w e,
  fst (bind (review_code ec sa code msg name) (print_report t) w) = Raise e ->
  exn_is_Exception e = false.
Proof.
  intros ec sa t code msg name w e H; exact (review_then_print_raise ec sa t code msg name w e H).
Qed.

Lemma review_and_print_no_Exception_witness :
  fst (bind (review_code (fun _ => Raise KeyboardInterrupt) joy_pipeline demo_code [] (lit "Dev"))
         (print_report (fun s => s)) world0) = Raise KeyboardInterrupt /\
  exn_is_Exception KeyboardInterrupt = false.
Proof.
  split; [vm_compute; reflexivity|].
  apply (review_and_print_no_Exception (fun _ => Raise KeyboardInterrupt) joy_pipeline
           (fun s => s) demo_code [] (lit "Dev") world0).
  vm_compute; reflexivity.
Defined.

(** * [main] *)

Lemma main_demo_eq : forall factory t rf args w ec sa,
  factory emotion_task emotion_model = Ok ec ->
  factory sentiment_task sentiment_model = Ok sa ->
  arg_demo args = true ->
  main factory t rf args w
  = bind (review_code ec sa demo_code demo_commit (lit "Demo Developer")) (print_report t)
      (mk_world (stdout w ++ init_lines
                   ++ [lit " Running demo with emotionally-charged sample code..."])
         (calls w) (clock w)).
Proof.
  intros factory t rf args w ec sa He Hs H; unfold main.
  cbv beta iota zeta delta [reviewer_init build_pipeline bind print ret stdout calls clock].
  rewrite He, Hs, H; cbv beta iota.
  rewrite <- !app_assoc; reflexivity.
Qed.

Lemma main_file_eq : forall factory t rf args w ec sa path,
  factory emotion_task emotion_model = Ok ec ->
  factory sentiment_task sentiment_model = Ok sa ->
  arg_demo args = false -> arg_file args = Some path -> path <> [] ->
  main factory t rf args w
  = try_file path
      (code <- open_read rf path ;;
       report <- review_code ec sa code (arg_commit args) (arg_name args) ;;
       print_report t report)
      (mk_world (stdout w ++ init_lines) (calls w) (clock w)).
Proof.
  intros factory t rf args w ec sa [|c p] He Hs Hd Hf Hp; [contradiction|].
  unfold main.
  cbv beta iota zeta delta [reviewer_init build_pipeline bind print ret stdout calls clock].
  rewrite He, Hs, Hd, Hf; cbv beta iota.
  rewrite <- !app_assoc; reflexivity.
Qed.

Lemma main_usage_eq : forall factory t rf args w ec sa,
  factory emotion_task emotion_model = Ok ec ->
  factory sentiment_task sentiment_model = Ok sa ->
  arg_demo args = false ->
  (arg_file args = None \/ arg_file args = Some []) ->
  main factory t rf args w
    = (Ok tt, mk_world (stdout w ++ init_lines ++ usage_lines) (calls w) (clock w)).
Proof.
  intros factory t rf args w ec sa He Hs Hd Hf; unfold main.
  cbv beta iota zeta delta [reviewer_init build_pipeline bind print ret stdout calls clock].
  rewrite He, Hs, Hd; cbv beta iota.
  destruct Hf as [Hf|Hf]; rewrite Hf; cbv beta iota zeta delta [bind print stdout calls clock];
    rewrite <- !app_assoc; reflexivity.
Qed.

Lemma main_load_failure_eq : forall factory t rf args w e,
  (factory emotion_task emotion_model = Raise e \/
   exists ec, factory emotion_task emotion_model = Ok ec /\
              factory sentiment_task sentiment_model = Raise e) ->
  main factory t rf args w
    = (Raise e, mk_world (stdout w ++ [lit " Loading emotion analysis models..."])
                  (calls w) (clock w)).
Proof.
  intros factory t rf args w e Hl; unfold main.
  cbv beta iota zeta delta [reviewer_init build_pipeline bind print ret stdout calls clock].
  destruct Hl as [He|(ec & He & Hs)]; rewrite He; [|rewrite Hs]; reflexivity.
Qed.

(** X15: once both models are loaded, without [--demo] and without a
    non-empty [--file], [main] prints the two loading messages and the three
    usage lines, invokes no model and returns normally. *)
Theorem main_usage : forall factory t rf args w ec sa,
  factory emotion_task emotion_model = Ok ec ->
  factory sentiment_task sentiment_model = Ok sa ->
  arg_demo args = false ->
  (arg_file args = None \/ arg_file args = Some []) ->
  main factory t rf args w
    = (Ok tt, mk_world (stdout w ++ init_lines ++ usage_lines) (calls w) (clock w)).
Proof.
  intros factory t rf args w ec sa He Hs Hd Hf.
  exact (main_usage_eq factory t rf args w ec sa He Hs Hd Hf).
Qed.

Lemma main_usage_witness :
  main joy_factory (fun s => s) (fun _ => Ok []) (mk_args (Some []) [] [] false) world0
    = (Ok tt, mk_world (init_lines ++ usage_lines) [] (clock world0)).
Proof.
  exact (main_usage joy_factory (fun s => s) (fun _ => Ok [])
           (mk_args (Some []) [] [] false) world0 joy_pipeline joy_pipeline
           eq_refl eq_refl eq_refl (or_intror eq_refl)).
Defined.

(** X16: once both models are loaded, when the file named by [--file]
    cannot be read (the read raises an [Exception]), [main] prints the
    loading messages and then [" File <path> not found!"] for a
    [FileNotFoundError] or [" Error reading file: <message>"] otherwise,
    invokes no model and returns normally. *)
Theorem main_unreadable_file : forall factory t rf args w ec sa path e,
  factory emotion_task emotion_model = Ok ec ->
  factory sentiment_task sentiment_model = Ok sa ->
  arg_demo args = false -> arg_file args = Some path -> path <> [] ->
  rf path = Raise e -> exn_is_Exception e = true ->
  main factory t rf args w
    = (Ok tt, mk_world (stdout w ++ init_lines ++ [file_error_line path e])
                (calls w) (clock w)).
Proof.
  intros factory t rf args w ec sa path e He Hs Hd Hf Hp Hr Hx.
  rewrite (main_file_eq factory t rf args w ec sa path He Hs Hd Hf Hp).
  unfold try_file, bind at 1, open_read; rewrite Hr.
  unfold file_error_line; destruct (is_FileNotFoundError e); [|rewrite Hx];
    unfold print; simpl; rewrite <- !app_assoc; reflexivity.
Qed.

Lemma main_unreadable_file_witness :
  main joy_factory (fun s => s) (fun p => Raise (FileNotFoundError p))
    (mk_args (Some (lit "missing.py")) [] (lit "Developer") false) world0
  = (Ok tt, mk_world (init_lines ++ [lit " File missing.py not found!"]) [] (clock world0)).
Proof.
  exact (main_unreadable_file joy_factory (fun s => s)
           (fun p => Raise (FileNotFoundError p))
           (mk_args (Some (lit "missing.py")) [] (lit "Developer") false) world0
           joy_pipeline joy_pipeline
           (lit "missing.py") (FileNotFoundError (lit "missing.py"))
           eq_refl eq_refl eq_refl eq_refl ltac:(discriminate) eq_refl eq_refl).
Defined.

(** X17: an exception deriving from [Exception] escapes [main] only from
    the construction of one of the two pipelines in
    [EmotionCodeReviewer()], which no [try] guards; every other exception
    escaping [main] is a [BaseException]-only one. *)
Theorem main_no_Exception : forall factory t rf args w e,
  fst (main factory t rf args w) = Raise e ->
  exn_is_Exception e = false \/
  factory emotion_task emotion_model = Raise e \/
  (exists ec, factory emotion_task emotion_model = Ok ec /\
              factory sentiment_task sentiment_model = Raise e).
Proof.
  intros factory t rf args w e.
  destruct (factory emotion_task emotion_model) as [ec|e1] eqn:He.
  2:{ rewrite (main_load_failure_eq factory t rf args w e1 (or_introl He)).
      intros H; injection H as <-; right; left; reflexivity. }
  destruct (factory sentiment_task sentiment_model) as [sa|e2] eqn:Hs.
  2:{ rewrite (main_load_failure_eq factory t rf args w e2
                 (or_intror (ex_intro _ ec (conj He Hs)))).
      intros H; injection H as <-; right; right; exists ec; split; reflexivity. }
  intros H; left; revert H.
  destruct (arg_demo args) eqn:Hd.
  - rewrite (main_demo_eq factory t rf args w ec sa He Hs Hd); apply review_then_print_raise.
  - destruct (arg_file args) as [[|c p]|] eqn:Hf.
    + rewrite (main_usage_eq factory t rf args w ec sa He Hs Hd (or_intror Hf));
        discriminate.
    + rewrite (main_file_eq factory t rf args w ec sa (c :: p) He Hs Hd Hf ltac:(discriminate)).
      unfold try_file.
      destruct (bind (open_read rf (c :: p)) _ _) as [[u|e'] w'].
      * discriminate.
      * destruct (is_FileNotFoundError e'); [discriminate|].
        destruct (exn_is_Exception e') eqn:He'; [discriminate|].
        intros H; injection H as <-; exact He'.
    + rewrite (main_usage_eq factory t rf args w ec sa He Hs Hd (or_introl Hf));
        discriminate.
Qed.

Lemma main_no_Exception_witness :
  fst (main no_emotion_model_factory (fun s => s) (fun _ => Ok [])
         (mk_args None [] (lit "Developer") true) world0) = Raise OSError_model /\
  exn_is_Exception OSError_model = true /\
  (exn_is_Exception OSError_model = false \/
   no_emotion_model_factory emotion_task emotion_model = Raise OSError_model \/
   (exists ec, no_emotion_model_factory emotion_task emotion_model = Ok ec /\
               no_emotion_model_factory sentiment_task sentiment_model = Raise OSError_model)).
Proof.
  split; [vm_compute; reflexivity|].
  split; [reflexivity|].
  apply (main_no_Exception no_emotion_model_factory (fun s => s) (fun _ => Ok [])
           (mk_args None [] (lit "Developer") true) world0).
  vm_compute; reflexivity.
Defined.

(** X18: when building one of the two pipelines raises, [main] prints
    only [" Loading emotion analysis models..."], invokes no model and
    raises that exception, whatever the arguments. *)
Theorem main_model_load_failure : forall factory t rf args w e,
  (factory emotion_task emotion_model = Raise e \/
   exists ec, factory emotion_task emotion_model = Ok ec /\
              factory sentiment_task sentiment_model = Raise e) ->
  main factory t rf args w
    = (Raise e, mk_world (stdout w ++ [lit " Loading emotion analysis models..."])
                  (calls w) (clock w)).
Proof.
  intros factory t rf args w e Hl; exact (main_load_failure_eq factory t rf args w e Hl).
Qed.

Lemma main_model_load_failure_witness :
  main no_emotion_model_factory (fun s => s) (fun _ => Ok [])
    (mk_args None [] (lit "Developer") true) world0
  = (Raise OSError_model,
     mk_world [lit " Loading emotion analysis models..."] [] (clock world0)).
Proof.
  exact (main_model_load_failure no_emotion_model_factory (fun s => s) (fun _ => Ok [])
           (mk_args None [] (lit "Developer") true) world0 OSError_model
           (or_introl eq_refl)).
Defined.
